(** * EVenture face verification service: a shallow embedding of
    [verification/app.py] and the properties of its pipeline.

    The service receives a JSON payload holding a user id and two base64
    images (a driving licence and a selfie), stores both in the upload
    folder, crops the first face the cascade detector reports in each,
    asks DeepFace for the distance between the two crops and compares the
    distance with [SIMILARITY_THRESHOLD].

    What the program delegates to libraries (base64, the file system,
    OpenCV, DeepFace, Flask's JSON parser) is gathered in one record,
    [World]; everything the source itself computes is written out. *)

From Stdlib Require Import ZArith Floats Ascii.
From Stdlib Require Strings.Byte.
From stdpp Require Import gmap strings list pretty.

Local Open Scope Z_scope.

(* Decimal literals such as 0.55 are read as the nearest double, as Python
   reads them. *)
Set Warnings "-inexact-float".

(** ** Python values *)

(** A [bytes] object. *)
Abbreviation bytes := (list Byte.byte).

#[global] Instance byte_eq_dec : EqDecision Byte.byte := Strings.Byte.byte_eq_dec.

(** The text of an exception, [str(e)]. *)
Abbreviation exn := string.

(** The scratch storage: the files reachable from the process, by path. *)
Abbreviation fs := (gmap string bytes).

(** ** [str] methods used by the source *)

Module PyStr.

(** [s.startswith(pre)] *)
Definition startswith (pre s : string) : bool := String.prefix pre s.

(** [s.split(sep)] for a separator of one character. *)
Fixpoint split (sep : ascii) (s : string) : list string :=
  match s with
  | EmptyString => [EmptyString]
  | String c s' =>
      if Ascii.eqb c sep then EmptyString :: split sep s'
      else match split sep s' with
           | h :: t => String c h :: t
           | [] => [String c EmptyString]
           end
  end.

(** [s.replace(old, new)] for [old] of one character. *)
Fixpoint replace (old : ascii) (new : string) (s : string) : string :=
  match s with
  | EmptyString => EmptyString
  | String c s' =>
      if Ascii.eqb c old then new +:+ replace old new s'
      else String c (replace old new s')
  end.

(** Truth value of a [str]: false exactly for the empty string. *)
Definition truthy (s : string) : bool :=
  match s with EmptyString => false | String _ _ => true end.

(** [c in s] for one character. *)
Fixpoint mem (c : ascii) (s : string) : bool :=
  match s with
  | EmptyString => false
  | String d s' => Ascii.eqb d c || mem c s'
  end.

(** [pat in s] for two strings. *)
Fixpoint contains (pat s : string) : bool :=
  String.prefix pat s
  || match s with
     | EmptyString => false
     | String _ s' => contains pat s'
     end.

(** The text of [s] from its first occurrence of [c] on, [c] left out;
    [None] when [c] does not occur. *)
Fixpoint after_first (c : ascii) (s : string) : option string :=
  match s with
  | EmptyString => None
  | String d s' => if Ascii.eqb d c then Some s' else after_first c s'
  end.

(** The text of [s] before its first occurrence of [c] (all of [s] when
    [c] does not occur). *)
Fixpoint before_first (c : ascii) (s : string) : string :=
  match s with
  | EmptyString => EmptyString
  | String d s' =>
      if Ascii.eqb d c then EmptyString else String d (before_first c s')
  end.

End PyStr.

(** [os.path.join(a, b)] on a POSIX system. *)
Definition path_join (a b : string) : string :=
  if PyStr.startswith "/" b then b
  else match a with
       | EmptyString => b
       | _ => if String.eqb (String.substring (String.length a - 1) 1 a) "/"
              then a +:+ b else a +:+ "/" +:+ b
       end.

(** ** JSON values

    What [json.loads] builds: [None], [bool], [int], [float], [str], [list]
    and [dict] with text keys. *)

#[warnings="-register-all"]
Inductive json : Type :=
| JNull
| JBool (b : bool)
| JInt (n : Z)
| JFloat (x : float)
| JStr (s : string)
| JArr (items : list json)
| JObj (fields : gmap string json).

(** A text is a JSON value. *)
Coercion JStr : string >-> json.

(** [type(v).__name__] *)
Definition type_name (v : json) : string :=
  match v with
  | JNull => "NoneType"
  | JBool _ => "bool"
  | JInt _ => "int"
  | JFloat _ => "float"
  | JStr _ => "str"
  | JArr _ => "list"
  | JObj _ => "dict"
  end.

(** The field of an object by name; a value that is no object has no
    field. *)
#[global] Instance json_lookup : Lookup string json json :=
  fun key v => match v with JObj fields => fields !! key | _ => None end.

(** [v == key] for a text [key]: only an equal text is equal to it. *)
Definition eq_text (key : string) (v : json) : bool :=
  match v with JStr s => String.eqb s key | _ => false end.

(** [key in data] for a text [key], where it is defined: a key of a dict,
    an element of a list, a piece of a text. [None] for the values that
    are no containers. *)
Definition contains_key (data : json) (key : string) : option bool :=
  match data with
  | JObj fields => Some (bool_decide (is_Some (fields !! key)))
  | JArr items => Some (existsb (eq_text key) items)
  | JStr s => Some (PyStr.contains key s)
  | _ => None
  end.

(** ** Sequence slicing *)

(** How CPython clips one bound of [l[start:stop]] for a sequence of
    length [len]: a negative bound counts from the end. *)
Definition slice_bound (len i : Z) : Z :=
  if i <? 0 then Z.max 0 (i + len) else Z.min i len.

(** [l[start:stop]] *)
Definition py_slice {A} (l : list A) (start stop : Z) : list A :=
  let n := Z.of_nat (length l) in
  let a := slice_bound n start in
  let b := slice_bound n stop in
  take (Z.to_nat (b - a)) (drop (Z.to_nat a) l).

(** ** Images *)

(** One pixel as [cv2.imread] delivers it: blue, green, red. *)
Definition pixel : Type := Byte.byte * Byte.byte * Byte.byte.

(** A colour image: rows of pixels, top row first. *)
Abbreviation image := (list (list pixel)).

(** A single-channel image. *)
Abbreviation gray_image := (list (list Byte.byte)).

(** One row of the array [detectMultiScale] returns. *)
Record box : Type := Box { box_x : Z; box_y : Z; box_w : Z; box_h : Z }.

(** [image[y:y+h, x:x+w]].  The coordinates of a box are numpy [int32]
    scalars, whose sums wrap around at [2^31]; the sums are written here
    as they come out below that bound. *)
Definition crop (img : image) (x y w h : Z) : image :=
  (fun row => py_slice row x (x + w)) <$> py_slice img y (y + h).

(** ** The libraries the service calls *)

Record World : Type := {
  (** [base64.b64decode] of a [str] *)
  b64decode : string -> exn + bytes;
  (** [open(path, 'wb')]: the error it raises, if any *)
  open_wb : string -> option exn;
  (** the decoder behind [cv2.imread]: [None] for bytes that are no image *)
  imdecode : bytes -> option image;
  (** what [cv2.imread(None)] does: the error it raises, or [None] when
      it returns [None] as for a file it cannot read *)
  imread_none : option exn;
  (** [cv2.cvtColor(image, cv2.COLOR_BGR2GRAY)] *)
  cvtColor_gray : image -> gray_image;
  (** [CascadeClassifier.detectMultiScale(gray, scaleFactor, minNeighbors,
      minSize)] with the frontal-face cascade *)
  detectMultiScale : gray_image -> float -> Z -> Z * Z -> exn + list box;
  (** the encoder behind [cv2.imwrite], chosen by the path's extension *)
  imencode : string -> image -> exn + bytes;
  (** [DeepFace.verify(img1_path, img2_path, model_name)["distance"]], from
      the contents of the two files ([None]: no such file) *)
  DeepFace_verify : option bytes -> option bytes -> string -> exn + float;
  (** the text of the [TypeError] of [key in v] for a value [v] of the
      named type that is no container *)
  not_iterable : string -> exn;
  (** the text of the [TypeError] of [v['key']] for a value [v] of the
      named type that is no dict *)
  bad_index : string -> exn;
  (** [str(v)] for a value that is no text, as an f-string prints it *)
  format_value : json -> string;
}.

(** ** Effects: files and exceptions *)

(** A computation reads and writes the scratch storage and either returns
    or raises; what it wrote before raising stays written. *)
Definition M (A : Type) : Type := fs -> (exn + A) * fs.

Definition ret {A} (a : A) : M A := fun σ => (inr a, σ).

Definition raise {A} (e : exn) : M A := fun σ => (inl e, σ).

Definition bind {A B} (m : M A) (k : A -> M B) : M B :=
  fun σ => match m σ with
           | (inl e, σ') => (inl e, σ')
           | (inr a, σ') => k a σ'
           end.

(** [try: m  except Exception as e: h e] *)
Definition try_except {A} (m : M A) (h : exn -> M A) : M A :=
  fun σ => match m σ with
           | (inl e, σ') => h e σ'
           | (inr a, σ') => (inr a, σ')
           end.

(** A library call that touches no file. *)
Definition call {A} (r : exn + A) : M A := fun σ => (r, σ).

Declare Scope py_scope.
Delimit Scope py_scope with py.
Notation "x <- m ;; k" := (bind m (fun x => k))
  (at level 100, m at next level, right associativity) : py_scope.
Local Open Scope py_scope.

(** ** Configuration (lines 15-17 of the source) *)

Definition UPLOAD_FOLDER : string := "uploads".

Definition SIMILARITY_THRESHOLD : float := 0.55%float.

(** ** The result dictionary *)

Record result : Type := Result {
  verified : bool;
  error : option string;
  similarity_score : option float;
}.

(** How an f-string prints a value that is [None] or a [str]. *)
Definition fmt (v : option string) : string := from_option id "None" v.

Section Service.

Context (W : World).

(** [with open(file_path, 'wb') as f: f.write(image_data)] *)
Definition write_file (file_path : string) (data : bytes) : M unit :=
  fun σ => match open_wb W file_path with
           | Some e => (inl e, σ)
           | None => (inr tt, <[file_path := data]> σ)
           end.

(** [cv2.imread(image_path)] *)
Definition imread (image_path : option string) : M (option image) :=
  fun σ => match image_path with
           | None => match imread_none W with
                     | Some e => (inl e, σ)
                     | None => (inr None, σ)
                     end
           | Some p => (inr (σ !! p ≫= imdecode W), σ)
           end.

(** [cv2.imwrite(path, img)]: raises when the image cannot be encoded,
    returns [False] when the file cannot be opened. *)
Definition imwrite (path : string) (img : image) : M bool :=
  fun σ => match imencode W path img with
           | inl e => (inl e, σ)
           | inr data =>
               match open_wb W path with
               | Some _ => (inr false, σ)
               | None => (inr true, <[path := data]> σ)
               end
           end.

(** Lines 26-43.  The argument is the field of the payload as it came;
    only a text has the method [startswith]. *)
Definition save_base64_image (base64_string : json) (filename : string)
  : M (option string * option string) :=
  try_except
    (base64_data <-
       match base64_string with
       | JStr base64_string =>
           if PyStr.startswith "data:image" base64_string
           then match PyStr.split "," base64_string !! 1%nat with
                | Some part => ret part
                | None => raise "list index out of range"
                end
           else ret base64_string
       | _ =>
           raise ("'" +:+ type_name base64_string
                  +:+ "' object has no attribute 'startswith'")
       end ;;
     image_data <- call (b64decode W base64_data) ;;
     let file_path := path_join UPLOAD_FOLDER filename in
     _ <- write_file file_path image_data ;;
     ret (Some file_path, None))
    (fun e => ret (None, Some e)).

(** [image_path.replace(old, new)]; the attribute is missing on [None]. *)
Definition str_replace (old : ascii) (new : string)
    (image_path : option string) : M string :=
  match image_path with
  | Some p => ret (PyStr.replace old new p)
  | None => raise "'NoneType' object has no attribute 'replace'"
  end.

(** Lines 45-68. *)
Definition extract_face (image_path : option string)
  : M (option string * option string) :=
  image <- imread image_path ;;
  match image with
  | None => ret (None, Some "Could not read image")
  | Some image =>
      let gray := cvtColor_gray W image in
      faces <- call (detectMultiScale W gray 1.1%float 5 (50, 50)) ;;
      match faces with
      | [] => ret (None, Some "No face detected in the image")
      | Box x y w h :: _ =>
          let face := crop image x y w h in
          extracted_face_path <- str_replace "." "_cropped." image_path ;;
          _ <- imwrite extracted_face_path face ;;
          ret (Some extracted_face_path, None)
      end
  end.

(** [DeepFace.verify(a, b, model_name="Facenet")["distance"]] *)
Definition DeepFace_distance (a b : string) : M float :=
  fun σ => (DeepFace_verify W (σ !! a) (σ !! b) "Facenet", σ).

(** Lines 70-102. *)
Definition match_faces (license_img_path selfie_img_path : option string)
  : M result :=
  try_except
    (r <- extract_face license_img_path ;;
     let '(license_face, error) := r in
     match license_face with
     | None =>
         ret (Result false (Some ("License image error: " +:+ fmt error)) None)
     | Some license_face =>
         r <- extract_face selfie_img_path ;;
         let '(selfie_face, error) := r in
         match selfie_face with
         | None =>
             ret (Result false
                    (Some ("Selfie image error: " +:+ fmt error)) None)
         | Some selfie_face =>
             similarity_score <- DeepFace_distance license_face selfie_face ;;
             if (SIMILARITY_THRESHOLD <=? similarity_score)%float
             then ret (Result true None (Some similarity_score))
             else ret (Result false (Some "Face verification failed")
                         (Some similarity_score))
         end
     end)
    (fun e => ret (Result false (Some ("Processing error: " +:+ e)) None)).

End Service.

(** ** The endpoint *)

(** What Flask hands to the view: whether the request declares a JSON body,
    and what [request.get_json()] gives, the parsed value, whatever JSON
    value the body holds, or the error the parser raises. *)
Record request : Type := Request {
  is_json : bool;
  get_json : exn + json;
}.

(** Truth value of a value that is [None] or a [str]. *)
Definition truthy (v : option string) : bool :=
  match v with Some s => PyStr.truthy s | None => false end.

(** [data[key]] on the payload, for a text [key]: the field of a dict (a
    [KeyError] when it has none), a [TypeError] on any other value. *)
Definition item (W : World) (data : json) (key : string) : exn + json :=
  match data with
  | JObj fields =>
      match fields !! key with
      | Some v => inr v
      | None => inl ("'" +:+ key +:+ "'")
      end
  | _ => inl (bad_index W (type_name data))
  end.

Definition subscript (W : World) (data : json) (key : string) : M json :=
  call (item W data key).

(** [key in data] *)
Definition contains (W : World) (data : json) (key : string) : exn + bool :=
  match contains_key data key with
  | Some b => inr b
  | None => inl (not_iterable W (type_name data))
  end.

(** The condition of line 114,
    ['userId' not in data or 'license_base64' not in data or
     'selfie_base64' not in data]: the tests run from the left and stop at
    the first name that is not in. *)
Definition fields_missing (W : World) (data : json) : exn + bool :=
  match contains W data "userId" with
  | inl e => inl e
  | inr false => inr true
  | inr true =>
      match contains W data "license_base64" with
      | inl e => inl e
      | inr false => inr true
      | inr true =>
          match contains W data "selfie_base64" with
          | inl e => inl e
          | inr b => inr (negb b)
          end
      end
  end.

(** How an f-string prints a JSON value: a text as it is. *)
Definition format (W : World) (v : json) : string :=
  match v with JStr s => s | _ => format_value W v end.

(** A view's return value: the JSON body and the HTTP status. *)
Definition response : Type := result * Z.

(** [jsonify(body)], status 200 when none is given. *)
Definition jsonify (body : result) : result := body.

Section Endpoint.

Context (W : World).

(** Lines 104-139; [unique_id] is the text of the [uuid.uuid4()] drawn
    for the request. *)
Definition verify (req : request) (unique_id : string) : M response :=
  try_except
    (if negb (is_json req)
     then ret (jsonify (Result false (Some "Request must be JSON") None), 400)
     else
       data <- call (get_json req) ;;
       missing <- call (fields_missing W data) ;;
       if missing
       then ret (jsonify (Result false (Some "Missing required fields") None),
                 400)
       else
         user_id <- subscript W data "userId" ;;
         let license_filename :=
           format W user_id +:+ "_" +:+ unique_id +:+ "_license.png" in
         let selfie_filename :=
           format W user_id +:+ "_" +:+ unique_id +:+ "_selfie.png" in
         license_base64 <- subscript W data "license_base64" ;;
         r <- save_base64_image W license_base64 license_filename ;;
         let '(license_path, license_error) := r in
         if truthy license_error
         then ret (jsonify (Result false
                     (Some ("License image error: " +:+ fmt license_error))
                     None), 400)
         else
           selfie_base64 <- subscript W data "selfie_base64" ;;
           r <- save_base64_image W selfie_base64 selfie_filename ;;
           let '(selfie_path, selfie_error) := r in
           if truthy selfie_error
           then ret (jsonify (Result false
                       (Some ("Selfie image error: " +:+ fmt selfie_error))
                       None), 400)
           else
             result <- match_faces W license_path selfie_path ;;
             ret (jsonify result, 200))
    (fun e =>
       ret (jsonify (Result false (Some ("Server error: " +:+ e)) None), 500)).

End Endpoint.

(** ** The ways a request ends

    The names under which a request stores its uploads, and the ways
    through [verify], each with the response and the storage it leaves. *)

Definition license_name (user_id unique_id : string) : string :=
  user_id +:+ "_" +:+ unique_id +:+ "_license.png".

Definition selfie_name (user_id unique_id : string) : string :=
  user_id +:+ "_" +:+ unique_id +:+ "_selfie.png".

(** The four paths one request may write. *)
Definition request_paths (user_id unique_id : string) : list string :=
  let l := path_join UPLOAD_FOLDER (license_name user_id unique_id) in
  let s := path_join UPLOAD_FOLDER (selfie_name user_id unique_id) in
  [l; s; PyStr.replace "." "_cropped." l; PyStr.replace "." "_cropped." s].

(** The payload lacks one of the three fields. *)
Definition missing_field (data : json) : Prop :=
  data !! "userId" = None \/ data !! "license_base64" = None
  \/ data !! "selfie_base64" = None.

Inductive verify_outcome (W : World) (req : request) (unique_id : string)
    (σ : fs) : response -> fs -> Prop :=
| NotJson :
    is_json req = false ->
    verify_outcome W req unique_id σ
      (Result false (Some "Request must be JSON") None, 400) σ
| BodyRaised e :
    is_json req = true ->
    get_json req = inl e ->
    verify_outcome W req unique_id σ
      (Result false (Some ("Server error: " +:+ e)) None, 500) σ
| CheckRaised data e :
    is_json req = true ->
    get_json req = inr data ->
    fields_missing W data = inl e ->
    verify_outcome W req unique_id σ
      (Result false (Some ("Server error: " +:+ e)) None, 500) σ
| MissingFields data :
    is_json req = true ->
    get_json req = inr data ->
    fields_missing W data = inr true ->
    verify_outcome W req unique_id σ
      (Result false (Some "Missing required fields") None, 400) σ
| IndexRaised data e :
    is_json req = true ->
    get_json req = inr data ->
    fields_missing W data = inr false ->
    item W data "userId" = inl e ->
    verify_outcome W req unique_id σ
      (Result false (Some ("Server error: " +:+ e)) None, 500) σ
| LicenseRefused data user_id license_base64 e :
    is_json req = true ->
    get_json req = inr data ->
    data !! "userId" = Some user_id ->
    data !! "license_base64" = Some license_base64 ->
    is_Some (data !! "selfie_base64") ->
    save_base64_image W license_base64 (license_name (format W user_id) unique_id) σ
      = (inr (None, Some e), σ) ->
    e <> "" ->
    verify_outcome W req unique_id σ
      (Result false (Some ("License image error: " +:+ e)) None, 400) σ
| SelfieRefused data user_id license_base64 selfie_base64
    license_path license_error σ1 e :
    is_json req = true ->
    get_json req = inr data ->
    data !! "userId" = Some user_id ->
    data !! "license_base64" = Some license_base64 ->
    data !! "selfie_base64" = Some selfie_base64 ->
    save_base64_image W license_base64 (license_name (format W user_id) unique_id) σ
      = (inr (license_path, license_error), σ1) ->
    truthy license_error = false ->
    save_base64_image W selfie_base64 (selfie_name (format W user_id) unique_id) σ1
      = (inr (None, Some e), σ1) ->
    e <> "" ->
    verify_outcome W req unique_id σ
      (Result false (Some ("Selfie image error: " +:+ e)) None, 400) σ1
| Matched data user_id license_base64 selfie_base64
    license_path license_error σ1 selfie_path selfie_error σ2 res σ3 :
    is_json req = true ->
    get_json req = inr data ->
    data !! "userId" = Some user_id ->
    data !! "license_base64" = Some license_base64 ->
    data !! "selfie_base64" = Some selfie_base64 ->
    save_base64_image W license_base64 (license_name (format W user_id) unique_id) σ
      = (inr (license_path, license_error), σ1) ->
    truthy license_error = false ->
    save_base64_image W selfie_base64 (selfie_name (format W user_id) unique_id) σ1
      = (inr (selfie_path, selfie_error), σ2) ->
    truthy selfie_error = false ->
    match_faces W license_path selfie_path σ2 = (inr res, σ3) ->
    verify_outcome W req unique_id σ (res, 200) σ3.

(** Both uploads of the request were stored (or refused without a
    message): [verify] reaches [match_faces] with these paths and this
    storage. *)
Definition uploads_stored (W : World) (req : request) (unique_id : string)
    (σ : fs) (license_path selfie_path : option string) (σ2 : fs) : Prop :=
  exists data user_id license_base64 selfie_base64 license_error σ1
         selfie_error,
    is_json req = true /\
    get_json req = inr data /\
    data !! "userId" = Some user_id /\
    data !! "license_base64" = Some license_base64 /\
    data !! "selfie_base64" = Some selfie_base64 /\
    save_base64_image W license_base64 (license_name (format W user_id) unique_id) σ
      = (inr (license_path, license_error), σ1) /\
    truthy license_error = false /\
    save_base64_image W selfie_base64 (selfie_name (format W user_id) unique_id) σ1
      = (inr (selfie_path, selfie_error), σ2) /\
    truthy selfie_error = false.

(** Both faces were located and cropped and DeepFace returned the distance
    [d] for the two crops. *)
Definition faces_scored (W : World) (license_path selfie_path : option string)
    (σ : fs) (d : float) : Prop :=
  exists license_face e1 σ1 selfie_face e2 σ2,
    extract_face W license_path σ = (inr (Some license_face, e1), σ1) /\
    extract_face W selfie_path σ1 = (inr (Some selfie_face, e2), σ2) /\
    DeepFace_verify W (σ2 !! license_face) (σ2 !! selfie_face) "Facenet"
      = inr d.

(** The request got as far as a distance. *)
Definition request_scored (W : World) (req : request) (unique_id : string)
    (σ : fs) (d : float) : Prop :=
  exists license_path selfie_path σ2,
    uploads_stored W req unique_id σ license_path selfie_path σ2 /\
    faces_scored W license_path selfie_path σ2 d.

(** The detector's contract for [minSize]: it reports no region smaller
    than the size it is given. *)
Definition honours_minSize (W : World) : Prop :=
  forall gray scaleFactor minNeighbors minSize faces b,
    detectMultiScale W gray scaleFactor minNeighbors minSize = inr faces ->
    b ∈ faces ->
    minSize.1 <= box_w b /\ minSize.2 <= box_h b.

(** One of the two uploads of the payload was refused with a message. *)
Definition upload_refused (W : World) (data : json)
    (unique_id : string) (σ : fs) : Prop :=
  exists user_id license_base64 selfie_base64,
    data !! "userId" = Some user_id /\
    data !! "license_base64" = Some license_base64 /\
    data !! "selfie_base64" = Some selfie_base64 /\
    ((exists e,
         save_base64_image W license_base64 (license_name (format W user_id) unique_id) σ
           = (inr (None, Some e), σ) /\ e <> "")
     \/ (exists license_path license_error σ1 e,
           save_base64_image W license_base64
             (license_name (format W user_id) unique_id) σ
             = (inr (license_path, license_error), σ1) /\
           truthy license_error = false /\
           save_base64_image W selfie_base64
             (selfie_name (format W user_id) unique_id) σ1
             = (inr (None, Some e), σ1) /\ e <> "")).

(** ** Names of scratch files *)

(** The characters of a string. *)
Abbreviation chars := String.list_ascii_of_string.

(** [a] occurs in [s]. *)
Definition occurs (a s : string) : Prop := exists x y, s = x +:+ a +:+ y.

(** [s] ends with [suf]. *)
Definition ends_with (suf s : string) : Prop := exists x, s = x +:+ suf.

Definition is_hex_or_dash (c : ascii) : bool :=
  let n := N_of_ascii c in
  ((48 <=? n) && (n <=? 57) || (97 <=? n) && (n <=? 102) || (n =? 45))%N.

(** The text [str(uuid.uuid4())] has: 36 characters, each a lower-case
    hexadecimal digit or a hyphen. *)
Definition uuid_text (s : string) : bool :=
  (String.length s =? 36)%nat && forallb is_hex_or_dash (chars s).

(** No stored file bears the identifier in its name. *)
Definition fresh_uuid (unique_id : string) (σ : fs) : Prop :=
  forall p, is_Some (σ !! p) -> ~ occurs unique_id p.

(** [σ'] comes from [σ] by writing files at paths among [ps] only. *)
Definition writes_within (ps : list string) (σ σ' : fs) : Prop :=
  (forall p, p ∉ ps -> σ' !! p = σ !! p)
  /\ (forall p, is_Some (σ !! p) -> is_Some (σ' !! p)).

(** The endings of the four paths of a request. *)
Definition path_endings : list string :=
  ["_license.png"; "_selfie.png"; "_license_cropped.png";
   "_selfie_cropped.png"].

(** The user id of the request's payload as it is printed into the file
    names (empty when there is none). *)
Definition req_user (W : World) (req : request) : string :=
  match get_json req with
  | inr data => from_option (format W) "" (data !! "userId")
  | inl _ => ""
  end.

(** An exception with the text [e] reaches the handler of [verify]: the
    JSON parser raises it, or the payload makes the test of line 114 or
    the access of line 118 raise it. *)
Definition handler_raised (W : World) (req : request) (e : exn) : Prop :=
  get_json req = inl e
  \/ exists data,
       get_json req = inr data
       /\ (fields_missing W data = inl e
           \/ (fields_missing W data = inr false
               /\ item W data "userId" = inl e)).

(** The encoder's need of an extension: [cv2.imwrite] finds no writer for
    a path without a dot and raises. *)
Definition encoder_needs_extension (W : World) : Prop :=
  forall path img,
    PyStr.mem "." path = false -> exists e, imencode W path img = inl e.

(** The request stored its licence upload at [license_path], which left
    the storage [σ1]. *)
Definition license_stored (W : World) (req : request) (unique_id : string)
    (σ : fs) (license_path : string) (σ1 : fs) : Prop :=
  exists data user_id license_base64 license_error,
    is_json req = true /\
    get_json req = inr data /\
    data !! "userId" = Some user_id /\
    data !! "license_base64" = Some license_base64 /\
    is_Some (data !! "selfie_base64") /\
    save_base64_image W license_base64 (license_name (format W user_id) unique_id) σ
      = (inr (Some license_path, license_error), σ1).

(** The request went on to store its selfie upload at [selfie_path], which
    left the storage [σ2]. *)
Definition selfie_stored (W : World) (req : request) (unique_id : string)
    (σ : fs) (selfie_path : string) (σ2 : fs) : Prop :=
  exists data user_id license_base64 selfie_base64 license_path license_error
         σ1 selfie_error,
    is_json req = true /\
    get_json req = inr data /\
    data !! "userId" = Some user_id /\
    data !! "license_base64" = Some license_base64 /\
    data !! "selfie_base64" = Some selfie_base64 /\
    save_base64_image W license_base64 (license_name (format W user_id) unique_id) σ
      = (inr (license_path, license_error), σ1) /\
    truthy license_error = false /\
    save_base64_image W selfie_base64 (selfie_name (format W user_id) unique_id) σ1
      = (inr (Some selfie_path, selfie_error), σ2).

(** Where [extract_face] may write for a given argument. *)
Definition cropped_path (image_path : option string) : list string :=
  match image_path with
  | Some p => [PyStr.replace "." "_cropped." p]
  | None => []
  end.

(** A computation keeps to the paths [ps]: files stored elsewhere are
    neither read nor changed, so that running next to a storage [σ] with
    no file at [ps] gives the same answer and leaves [σ] in place. *)
Definition framed {A} (ps : list string) (m : M A) : Prop :=
  forall τ σ : fs,
    Forall (fun p => σ !! p = None) ps ->
    m (τ ∪ σ) = ((m τ).1, (m τ).2 ∪ σ).

(** The folder in front of the four paths: none for a user id that starts
    with a slash. *)
Definition folder_prefix (user_id : string) : string :=
  if PyStr.startswith "/" user_id then "" else "uploads/".

(** The files [extract_face] may touch for a given argument: the image it
    reads and the cropped copy it writes. *)
Definition touched (image_path : option string) : list string :=
  match image_path with
  | Some p => [p; PyStr.replace "." "_cropped." p]
  | None => []
  end.

(** ** A small world to run the service in

    The examples below need the libraries to answer. This world decodes
    canonical base64 text, opens files directly under [uploads/] only, and
    stands in for OpenCV and DeepFace with a toy codec: a file of one byte
    is a 64 by 64 image filled with that byte, an image whose first pixel
    is zero shows no face, and two crops are at distance 0 when their
    files are equal and 0.75 otherwise. *)

Module Demo.

Definition b64_index (c : ascii) : option N :=
  let n := N_of_ascii c in
  if ((65 <=? n) && (n <=? 90))%N then Some (n - 65)%N
  else if ((97 <=? n) && (n <=? 122))%N then Some (n - 71)%N
  else if ((48 <=? n) && (n <=? 57))%N then Some (n + 4)%N
  else if (n =? 43)%N then Some 62%N
  else if (n =? 47)%N then Some 63%N
  else None.

Definition is_pad (c : ascii) : bool := Ascii.eqb c "=".

(** The decoder's registers: position in the group of four, bits left
    over, padding seen in this group, bytes produced (last first),
    whether a complete padding stopped the scan. *)
Record b64_state : Type := B64 {
  quad_pos : N;
  leftchar : N;
  pads : N;
  produced : list N;
  stopped : bool;
}.

Definition b64_step (st : b64_state) (c : ascii) : b64_state :=
  if stopped st then st
  else if is_pad c then
    if (2 <=? quad_pos st)%N then
      B64 (quad_pos st) (leftchar st) (pads st + 1) (produced st)
        (4 <=? quad_pos st + (pads st + 1))%N
    else st
  else
    match b64_index c with
    | None => st
    | Some v =>
        match quad_pos st with
        | 0%N => B64 1 v 0 (produced st) false
        | 1%N => B64 2 (v mod 16) 0
                   ((leftchar st * 4 + v / 16)%N :: produced st) false
        | 2%N => B64 3 (v mod 4) 0
                   ((leftchar st * 16 + v / 4)%N :: produced st) false
        | _ => B64 0 0 0 ((leftchar st * 64 + v)%N :: produced st) false
        end
    end.

Definition byte_of_N (n : N) : Byte.byte :=
  default Byte.x00 (Byte.of_N n).

(** Base64 as CPython decodes it when no validation is asked for:
    characters outside the alphabet are skipped, a complete padding ends
    the scan, and an unfinished group is an error. *)
Definition b64decode (s : string) : exn + bytes :=
  let chars := String.list_ascii_of_string s in
  if forallb (fun c => (N_of_ascii c <? 128)%N) chars then
    let st := fold_left b64_step chars (B64 0 0 0 [] false) in
    if stopped st || (quad_pos st =? 0)%N
    then inr (byte_of_N <$> reverse (produced st))
    else if (quad_pos st =? 1)%N
    then inl ("Invalid base64-encoded string: number of data characters ("
              +:+ pretty (N.of_nat (length (produced st)) / 3 * 4 + 1)%N
              +:+ ") cannot be 1 more than a multiple of 4")
    else inl "Incorrect padding"
  else inl "string argument should contain only ASCII characters".

Definition open_wb (path : string) : option exn :=
  match PyStr.after_first "/" path with
  | Some name =>
      if String.eqb (PyStr.before_first "/" path) "uploads"
         && negb (PyStr.mem "/" name)
      then None
      else Some "[Errno 2] No such file or directory"
  | None => Some "[Errno 13] Permission denied"
  end.

Definition imdecode (data : bytes) : option image :=
  match data with
  | [c] => Some (replicate 64 (replicate 64 (c, c, c)))
  | _ => None
  end.

Definition cvtColor_gray (img : image) : gray_image :=
  map (map (fun px : pixel => px.1.1)) img.

Definition candidates : list box :=
  [Box 4 6 50 52; Box 0 0 60 60; Box 1 1 20 20].

Definition detectMultiScale (gray : gray_image) (scaleFactor : float)
    (minNeighbors : Z) (minSize : Z * Z) : exn + list box :=
  match gray with
  | (c :: _) :: _ =>
      if bool_decide (c = Byte.x00) then inr []
      else inr (filter (fun b => minSize.1 <= box_w b /\ minSize.2 <= box_h b)
                  candidates)
  | _ => inl "(-215:Assertion failed) !empty()"
  end.

(** The text after the last dot of a path; [None] without a dot. *)
Fixpoint extension (path : string) : option string :=
  match path with
  | EmptyString => None
  | String c rest =>
      match extension rest with
      | Some ext => Some ext
      | None => if Ascii.eqb c "." then Some rest else None
      end
  end.

(** The encoder is chosen by the extension of the path; none is found for
    a path without a known one. *)
Definition imencode (path : string) (img : image) : exn + bytes :=
  match extension path with
  | Some "png" | Some "jpg" | Some "jpeg" =>
      match img with
      | ((c, _, _) :: _) :: _ => inr [c]
      | _ => inl "(-215:Assertion failed) !_img.empty()"
      end
  | _ => inl "could not find a writer for the specified extension"
  end.

Definition DeepFace_verify (a b : option bytes) (model_name : string)
  : exn + float :=
  match a, b with
  | Some x, Some y =>
      if bool_decide (x = y) then inr 0%float else inr 0.75%float
  | _, _ => inl "Confirm that the image exists"
  end.

Definition not_iterable (type : string) : exn :=
  "argument of type '" +:+ type +:+ "' is not iterable".

Definition bad_index (type : string) : exn :=
  if String.eqb type "list"
  then "list indices must be integers or slices, not str"
  else if String.eqb type "str"
  then "string indices must be integers, not 'str'"
  else "'" +:+ type +:+ "' object is not subscriptable".

(** [None], booleans and integers as Python prints them.  The examples
    print texts only; a float, a list and a dict get a placeholder. *)
Definition format_value (v : json) : string :=
  match v with
  | JNull => "None"
  | JBool true => "True"
  | JBool false => "False"
  | JInt n => pretty n
  | JFloat _ => "<float>"
  | JStr s => s
  | JArr _ => "[...]"
  | JObj _ => "{...}"
  end.

Definition world : World :=
  Build_World b64decode open_wb imdecode None
    cvtColor_gray detectMultiScale imencode DeepFace_verify
    not_iterable bad_index format_value.

(** A payload with the three fields. *)
Definition payload (user_id license selfie : string) : json :=
  JObj (<["userId" := JStr user_id]>
          (<["license_base64" := JStr license]>
             (<["selfie_base64" := JStr selfie]> ∅))).

Definition post (user_id license selfie : string) : request :=
  Request true (inr (payload user_id license selfie)).

(** Two stored images: one full of [A], one full of [B]. *)
Definition disk : fs :=
  <["uploads/a.png" := [Byte.x41]]> (<["uploads/b.png" := [Byte.x42]]> ∅).

(** The storage once the face of the first, then of both, is cropped. *)
Definition disk1 : fs := <["uploads/a_cropped.png" := [Byte.x41]]> disk.
Definition disk2 : fs := <["uploads/b_cropped.png" := [Byte.x42]]> disk1.

(** The image the codec reads from a file holding the byte [c]. *)
Definition filled (c : Byte.byte) : image :=
  replicate 64 (replicate 64 (c, c, c)).

(** A grid of three rows and four columns. *)
Definition grid : image :=
  let px (n : Byte.byte) : pixel := (n, n, n) in
  [ [px Byte.x00; px Byte.x01; px Byte.x02; px Byte.x03];
    [px Byte.x10; px Byte.x11; px Byte.x12; px Byte.x13];
    [px Byte.x20; px Byte.x21; px Byte.x22; px Byte.x23] ].

(** A stored image whose name has no extension. *)
Definition plain_disk : fs := {["uploads/face" := [Byte.x41]]}.

(** The text of a version 4 UUID. *)
Definition uuid1 : string := "3f2b8c1e-5d47-4a90-9c3e-7b1a2d4e6f80".
Definition uuid2 : string := "a81d0c55-0e2f-4b6a-8f11-c2d3e4f5a6b7".

End Demo.

(** * Properties *)

(** ** Running a computation *)

(** Two readings of one payload, or two results of one call, are the
    same. *)
Ltac same_payload :=
  repeat match goal with
         | H1 : get_json ?r = inr ?d1, H2 : get_json ?r = inr ?d2 |- _ =>
             assert (d1 = d2) by congruence; subst d1; clear H1
         | H1 : ?d !! ?k = Some ?v1, H2 : ?d !! ?k = Some ?v2 |- _ =>
             assert (v1 = v2) by congruence; subst v1; clear H1
         end.

Ltac same_save :=
  repeat match goal with
         | H1 : save_base64_image ?W ?a ?b ?s = _,
           H2 : save_base64_image ?W ?a ?b ?s = _ |- _ =>
             rewrite H1 in H2; simplify_eq
         end.

(** An error with a message is not falsy. *)
Ltac message_truthy :=
  match goal with
  | H : truthy (Some ?e) = false, N : ?e <> EmptyString |- _ =>
      destruct e; [by destruct N | discriminate H]
  end.

Ltac run :=
  unfold verify, match_faces, extract_face, save_base64_image, str_replace,
    DeepFace_distance, imread, imwrite, write_file, subscript, jsonify,
    try_except, bind, call, ret, raise in *.

Section Decision.

Context (W : World).

(** Once both faces are cropped and DeepFace has answered, what
    [match_faces] returns is fixed by one comparison. *)
Lemma match_faces_scored lic sel σ lf e1 σ1 sf e2 σ2 d :
  extract_face W lic σ = (inr (Some lf, e1), σ1) ->
  extract_face W sel σ1 = (inr (Some sf, e2), σ2) ->
  DeepFace_verify W (σ2 !! lf) (σ2 !! sf) "Facenet" = inr d ->
  match_faces W lic sel σ =
    (inr (if (SIMILARITY_THRESHOLD <=? d)%float
          then Result true None (Some d)
          else Result false (Some "Face verification failed") (Some d)),
     σ2).
Proof.
  intros H1 H2 H3.
  unfold match_faces, try_except, bind, DeepFace_distance.
  rewrite H1, H2, H3.
  destruct (SIMILARITY_THRESHOLD <=? d)%float; reflexivity.
Qed.

End Decision.


Section Pipeline.

Context (W : World).

(** [save_base64_image] never raises: it returns the path of the file it
    wrote, or an error text and leaves the storage alone. *)
Lemma save_base64_image_cases base64_string filename σ :
  (exists data,
      open_wb W (path_join UPLOAD_FOLDER filename) = None /\
      save_base64_image W base64_string filename σ =
        (inr (Some (path_join UPLOAD_FOLDER filename), None),
         <[path_join UPLOAD_FOLDER filename := data]> σ))
  \/ (exists e,
        save_base64_image W base64_string filename σ
          = (inr (None, Some e), σ)).
Proof.
  run.
  destruct base64_string as [| | | |text| |]; simpl;
    try destruct (PyStr.startswith _ text); try destruct (_ !! 1%nat);
    repeat (case_match; simplify_eq/=); eauto.
Qed.

(** The fields of a dict. *)
Lemma lookup_dict fields (key : string) : JObj fields !! key = fields !! key.
Proof. reflexivity. Qed.

(** On a dict the test of line 114 is the absence of a field. *)
Lemma fields_missing_dict fields :
  missing_field (JObj fields) -> fields_missing W (JObj fields) = inr true.
Proof.
  unfold missing_field, fields_missing, contains; simpl.
  rewrite ?lookup_dict.
  intros [H|[H|H]]; rewrite H; repeat case_bool_decide; simpl;
    try reflexivity;
    match goal with N : is_Some None |- _ => by destruct N end.
Qed.

(** Where the test of line 114 lets a payload through and line 118 finds
    the user id, the payload is a dict with the three fields. *)
Lemma fields_present data user_id :
  fields_missing W data = inr false ->
  item W data "userId" = inr user_id ->
  data !! "userId" = Some user_id
  /\ (exists license_base64,
         data !! "license_base64" = Some license_base64
         /\ item W data "license_base64" = inr license_base64)
  /\ (exists selfie_base64,
         data !! "selfie_base64" = Some selfie_base64
         /\ item W data "selfie_base64" = inr selfie_base64).
Proof.
  destruct data as [| | | | | |fields]; try discriminate.
  unfold fields_missing, contains, item; simpl; rewrite ?lookup_dict.
  intros Hm Hu.
  repeat case_bool_decide; simplify_eq/=;
    repeat match goal with H : is_Some _ |- _ => destruct H as [? H] end.
  repeat match goal with H : _ !! _ = Some _ |- _ => rewrite H in * end.
  simplify_eq. eauto 10.
Qed.

(** A field the payload has is what the subscript gives. *)
Lemma item_lookup data key v : data !! key = Some v -> item W data key = inr v.
Proof.
  destruct data; try discriminate. rewrite lookup_dict. unfold item.
  by intros ->.
Qed.

(** A payload with the three fields passes the test of line 114. *)
Lemma fields_missing_present data :
  is_Some (data !! "userId") ->
  is_Some (data !! "license_base64") ->
  is_Some (data !! "selfie_base64") ->
  fields_missing W data = inr false.
Proof.
  destruct data as [| | | | | |fields];
    try (by intros [? ?]).
  unfold fields_missing, contains; simpl; rewrite ?lookup_dict.
  intros H1 H2 H3.
  by rewrite !bool_decide_eq_true_2.
Qed.

(** [match_faces] never raises. *)
Lemma match_faces_returns lic sel σ :
  exists r σ', match_faces W lic sel σ = (inr r, σ').
Proof.
  unfold match_faces, try_except, bind.
  destruct (extract_face W lic σ) as [[e|[[lf|] e1]] σ1]; simpl; eauto.
  destruct (extract_face W sel σ1) as [[e|[[sf|] e2]] σ2]; simpl; eauto.
  unfold DeepFace_distance.
  destruct (DeepFace_verify W _ _ _); simpl; eauto.
  destruct (_ <=? _)%float; simpl; eauto.
Qed.

(** Every request ends in one of the eight ways. *)
Lemma verify_outcome_spec req unique_id σ :
  exists resp σ',
    verify W req unique_id σ = (inr resp, σ')
    /\ verify_outcome W req unique_id σ resp σ'.
Proof.
  destruct req as [j body].
  unfold verify, try_except. simpl.
  destruct j; simpl; [|unfold ret; eauto using verify_outcome].
  unfold bind at 1, call.
  destruct body as [e|data]; simpl; [unfold ret; eauto using verify_outcome|].
  unfold bind at 1.
  destruct (fields_missing W data) as [e|[|]] eqn:Hm; simpl;
    [unfold ret; eauto using verify_outcome..|].
  unfold subscript, jsonify. unfold bind at 1, call at 1.
  destruct (item W data "userId") as [e|u] eqn:Hu; simpl;
    [unfold ret; eauto using verify_outcome|].
  destruct (fields_present data u Hm Hu)
    as (Hu' & (l & Hl' & Hl) & (s & Hs' & Hs)).
  unfold bind at 1, call at 1. rewrite Hl.
  change (format W u +:+ "_" +:+ unique_id +:+ "_license.png")
    with (license_name (format W u) unique_id).
  change (format W u +:+ "_" +:+ unique_id +:+ "_selfie.png")
    with (selfie_name (format W u) unique_id).
  unfold bind at 1.
  destruct (save_base64_image W l (license_name (format W u) unique_id) σ)
    as [[e|[lp le]] σ1] eqn:Hsl.
  { destruct (save_base64_image_cases l (license_name (format W u) unique_id) σ)
      as [(d & _ & Hd)|(e' & He')]; congruence. }
  destruct (truthy le) eqn:Hle.
  { unfold ret. do 2 eexists. split; [reflexivity|].
    destruct (save_base64_image_cases l (license_name (format W u) unique_id) σ)
      as [(d & _ & Hd)|(e' & He')]; rewrite Hsl in *; simplify_eq/=.
    eapply LicenseRefused; eauto. by intros ->. }
  unfold bind at 1, call at 1. rewrite Hs. unfold bind at 1.
  destruct (save_base64_image W s (selfie_name (format W u) unique_id) σ1)
    as [[e|[sp se]] σ2] eqn:Hss.
  { destruct (save_base64_image_cases s (selfie_name (format W u) unique_id) σ1)
      as [(d & _ & Hd)|(e' & He')]; congruence. }
  destruct (truthy se) eqn:Hse.
  { unfold ret. do 2 eexists. split; [reflexivity|].
    destruct (save_base64_image_cases s (selfie_name (format W u) unique_id) σ1)
      as [(d & _ & Hd)|(e' & He')]; rewrite Hss in *; simplify_eq/=.
    eapply SelfieRefused; eauto. by intros ->. }
  unfold bind.
  destruct (match_faces_returns lp sp σ2) as (r & σ3 & Hmf). rewrite Hmf.
  unfold ret. do 2 eexists. split; [reflexivity|].
  eapply Matched; eauto.
Qed.

(** A request whose uploads are stored is answered with what
    [match_faces] returns, under status 200. *)
Lemma verify_matched req unique_id σ lp sp σ2 :
  uploads_stored W req unique_id σ lp sp σ2 ->
  exists r σ3,
    match_faces W lp sp σ2 = (inr r, σ3) /\
    verify W req unique_id σ = (inr (r, 200), σ3).
Proof.
  intros (data & u & l & s & le & σ1 & se & Hj & Hd & Hu & Hl & Hs
          & Hsl & Hle & Hss & Hse).
  destruct (match_faces_returns lp sp σ2) as (r & σ3 & Hm).
  exists r, σ3. split; [exact Hm|].
  unfold verify, try_except, bind, call, subscript, jsonify, ret.
  rewrite Hj, Hd. simpl.
  rewrite (fields_missing_present data) by (rewrite ?Hu, ?Hl, ?Hs; eauto).
  rewrite (item_lookup _ _ _ Hu), (item_lookup _ _ _ Hl),
    (item_lookup _ _ _ Hs).
  unfold license_name, selfie_name in *.
  rewrite Hsl, Hle, Hss, Hse, Hm. reflexivity.
Qed.

(** What [match_faces] returns carries a distance exactly when both
    faces were cropped and scored. *)
Lemma match_faces_score lp sp σ r σ' d :
  match_faces W lp sp σ = (inr r, σ') ->
  similarity_score r = Some d <-> faces_scored W lp sp σ d.
Proof.
  intros Hm. split.
  - revert Hm. unfold match_faces, try_except, bind, faces_scored.
    destruct (extract_face W lp σ) as [[e|[[lf|] e1]] σ1] eqn:H1;
      simpl; unfold ret; try (intros; simplify_eq/=; done).
    destruct (extract_face W sp σ1) as [[e|[[sf|] e2]] σ2] eqn:H2;
      simpl; unfold ret; try (intros; simplify_eq/=; done).
    unfold DeepFace_distance.
    destruct (DeepFace_verify W _ _ _) as [e|d'] eqn:H3;
      simpl; try (intros; simplify_eq/=; done).
    destruct (_ <=? _)%float; intros; simplify_eq/=;
      repeat eexists; eauto.
  - intros (lf & e1 & σ1 & sf & e2 & σ2 & H1 & H2 & H3).
    rewrite (match_faces_scored W _ _ _ _ _ _ _ _ _ _ H1 H2 H3) in Hm.
    destruct (_ <=? _)%float; simplify_eq/=; reflexivity.
Qed.

(** What [match_faces] returns is one of three shapes. *)
Lemma match_faces_shape lp sp σ r σ' :
  match_faces W lp sp σ = (inr r, σ') ->
  (exists d, r = Result true None (Some d))
  \/ (exists d, r = Result false (Some "Face verification failed") (Some d))
  \/ (exists e, r = Result false (Some e) None).
Proof.
  unfold match_faces, try_except, bind.
  destruct (extract_face W lp σ) as [[e|[[lf|] e1]] σ1];
    simpl; unfold ret; try (intros; simplify_eq/=; eauto 6; fail).
  destruct (extract_face W sp σ1) as [[e|[[sf|] e2]] σ2];
    simpl; unfold ret; try (intros; simplify_eq/=; eauto 6; fail).
  unfold DeepFace_distance.
  destruct (DeepFace_verify W _ _ _) as [e|d'];
    simpl; try (intros; simplify_eq/=; eauto 6; fail).
  destruct (_ <=? _)%float; intros; simplify_eq/=; eauto 6.
Qed.


(** C1: once both faces are cropped and DeepFace has returned the
    distance [d], the result is decided by one comparison with the fixed
    threshold 0.55: it is verified exactly when [0.55 <= d]; then it is
    the verified result carrying [d], and otherwise it is a not-verified
    result that still carries [d]. *)
Theorem decision_is_threshold_comparison lic sel σ lf e1 σ1 sf e2 σ2 d :
  extract_face W lic σ = (inr (Some lf, e1), σ1) ->
  extract_face W sel σ1 = (inr (Some sf, e2), σ2) ->
  DeepFace_verify W (σ2 !! lf) (σ2 !! sf) "Facenet" = inr d ->
  SIMILARITY_THRESHOLD = 0.55%float /\
  exists r,
    match_faces W lic sel σ = (inr r, σ2) /\
    (verified r = true <-> (0.55 <=? d)%float = true) /\
    similarity_score r = Some d /\
    ((0.55 <=? d)%float = true -> r = Result true None (Some d)) /\
    ((0.55 <=? d)%float = false ->
       r = Result false (Some "Face verification failed") (Some d)).
Proof.
  intros H1 H2 H3. split; [reflexivity|].
  rewrite (match_faces_scored W _ _ _ _ _ _ _ _ _ _ H1 H2 H3).
  change SIMILARITY_THRESHOLD with 0.55%float.
  eexists; split; [reflexivity|].
  destruct (0.55 <=? d)%float; simpl; naive_solver.
Qed.

(** C2: the result of a request holds a similarity score exactly when
    both uploads were stored, both faces were located and cropped, and
    DeepFace returned a distance.  A verified result holds the score and
    no error; the one result that holds an error next to a score is the
    "Face verification failed" answer to a distance under the threshold;
    every other error comes without a score. *)
Theorem score_present_iff_scored req unique_id σ :
  exists body status σ',
    verify W req unique_id σ = (inr (body, status), σ') /\
    (forall d, similarity_score body = Some d
               <-> request_scored W req unique_id σ d) /\
    (verified body = true ->
       error body = None /\ is_Some (similarity_score body)) /\
    (is_Some (error body) -> is_Some (similarity_score body) ->
       verified body = false
       /\ error body = Some "Face verification failed") /\
    (similarity_score body = None ->
       verified body = false /\ is_Some (error body)).
Proof.
  destruct (verify_outcome_spec req unique_id σ)
    as ([body status] & σ' & Hv & Hout).
  exists body, status, σ'. split; [exact Hv|]. split.
  - intros d. split.
    + intros Hd.
      inversion Hout; subst; simpl in Hd; try discriminate.
      exists license_path, selfie_path, σ2. split.
      * unfold uploads_stored. eauto 20.
      * eapply match_faces_score; eauto.
    + intros (lp & sp & σ2 & Hup & Hsc).
      destruct (verify_matched _ _ _ _ _ _ Hup) as (r & σ3 & Hm & Hv').
      rewrite Hv in Hv'. simplify_eq.
      eapply match_faces_score; eauto.
  - inversion Hout; subst; simpl;
      try (repeat split; intros; simplify_eq/=; eauto;
           match goal with H : is_Some None |- _ => by destruct H end).
    match goal with H : match_faces _ _ _ _ = _ |- _ =>
      destruct (match_faces_shape _ _ _ _ _ H)
        as [[d ->]|[[d ->]|[e' ->]]] end;
      simpl; repeat split; intros; simplify_eq/=; eauto;
      match goal with H : is_Some None |- _ => by destruct H end.
Qed.

(** C9: [match_faces] returns a result for every pair of paths and every
    storage and never raises: an exception of either face extraction or
    of the scoring is turned into a not-verified result with a
    "Processing error" text.  Hence a request that reaches [match_faces]
    is answered with status 200, and the status 500 answer of [verify]
    never comes from [match_faces]: it comes from an exception raised
    before any upload is stored, by the JSON parser or, for a payload that
    is no dict, by the membership test of line 114 or the subscript of
    line 118. *)
Theorem match_faces_never_raises :
  (forall lic sel σ, exists r σ', match_faces W lic sel σ = (inr r, σ'))
  /\ (forall lic sel σ e σ1,
        extract_face W lic σ = (inl e, σ1) ->
        match_faces W lic sel σ =
          (inr (Result false (Some ("Processing error: " +:+ e)) None), σ1))
  /\ (forall lic sel σ lf e1 σ1 e σ2,
        extract_face W lic σ = (inr (Some lf, e1), σ1) ->
        extract_face W sel σ1 = (inl e, σ2) ->
        match_faces W lic sel σ =
          (inr (Result false (Some ("Processing error: " +:+ e)) None), σ2))
  /\ (forall lic sel σ lf e1 σ1 sf e2 σ2 e,
        extract_face W lic σ = (inr (Some lf, e1), σ1) ->
        extract_face W sel σ1 = (inr (Some sf, e2), σ2) ->
        DeepFace_verify W (σ2 !! lf) (σ2 !! sf) "Facenet" = inl e ->
        match_faces W lic sel σ =
          (inr (Result false (Some ("Processing error: " +:+ e)) None), σ2))
  /\ (forall req unique_id σ lp sp σ2,
        uploads_stored W req unique_id σ lp sp σ2 ->
        exists r σ3,
          match_faces W lp sp σ2 = (inr r, σ3) /\
          verify W req unique_id σ = (inr (r, 200), σ3))
  /\ (forall req unique_id σ body σ',
        verify W req unique_id σ = (inr (body, 500), σ') ->
        σ' = σ
        /\ exists e, handler_raised W req e
                     /\ body = Result false (Some ("Server error: " +:+ e))
                                 None).
Proof.
  split; [exact match_faces_returns|].
  split; [|split; [|split; [|split; [exact verify_matched|]]]].
  - intros lic sel σ e σ1 H1.
    unfold match_faces, try_except, bind. by rewrite H1.
  - intros lic sel σ lf e1 σ1 e σ2 H1 H2.
    unfold match_faces, try_except, bind. by rewrite H1, H2.
  - intros lic sel σ lf e1 σ1 sf e2 σ2 e H1 H2 H3.
    unfold match_faces, try_except, bind, DeepFace_distance.
    by rewrite H1, H2, H3.
  - intros req unique_id σ body σ' Hv.
    destruct (verify_outcome_spec req unique_id σ)
      as (resp & σ'' & Hv' & Hout).
    rewrite Hv in Hv'. simplify_eq.
    unfold handler_raised.
    inversion Hout; subst; (split; [reflexivity|]); eauto 10.
Qed.

End Pipeline.

(** A payload whose three fields are read passed the test of line 114 and
    the subscript of line 118. *)
Ltac payload_clash :=
  match goal with
  | Hm : fields_missing ?W ?d = _ |- _ =>
      let P := fresh in
      assert (P : fields_missing W d = inr false)
        by (apply (fields_missing_present W);
            first [eassumption | eapply mk_is_Some; eassumption]);
      first [ congruence
            | match goal with
              | Hi : item W d "userId" = inl _,
                Hu : d !! "userId" = Some _ |- _ =>
                  rewrite (item_lookup W _ _ _ Hu) in Hi; discriminate
              end ]
  end.

(** Three runs in the demonstration world: two different faces are at
    distance 0.75 and the request is verified; the same image twice is at
    distance 0 and is not; an image whose first pixel is black shows no
    face. *)
Example run_two_faces :
  (verify Demo.world (Demo.post "u1" "QQ==" "Qg==") Demo.uuid1 ∅).1
  = inr (Result true None (Some 0.75%float), 200).
Proof. vm_compute. reflexivity. Qed.

Example run_same_face :
  (verify Demo.world (Demo.post "u1" "QQ==" "QQ==") Demo.uuid1 ∅).1
  = inr (Result false (Some "Face verification failed") (Some 0%float), 200).
Proof. vm_compute. reflexivity. Qed.

Example run_no_face :
  (verify Demo.world (Demo.post "u1" "AA==" "QQ==") Demo.uuid1 ∅).1
  = inr (Result false
           (Some "License image error: No face detected in the image") None,
         200).
Proof. vm_compute. reflexivity. Qed.



(** In the demonstration world the crops of two different images are at
    distance 0.75, which is above the threshold. *)
Lemma decision_is_threshold_comparison_witness :
  exists r,
    match_faces Demo.world (Some "uploads/a.png") (Some "uploads/b.png")
      Demo.disk = (inr r, Demo.disk2)
    /\ r = Result true None (Some 0.75%float).
Proof.
  destruct (decision_is_threshold_comparison Demo.world
              (Some "uploads/a.png") (Some "uploads/b.png") Demo.disk
              "uploads/a_cropped.png" None Demo.disk1
              "uploads/b_cropped.png" None Demo.disk2 0.75%float)
    as (_ & r & Hr & _ & _ & Hv & _);
    [vm_compute; reflexivity | vm_compute; reflexivity
    | vm_compute; reflexivity |].
  exists r. split; [exact Hr | apply Hv; reflexivity].
Defined.

(** ** The face cropper *)

Section Cropper.

(** Inside the sequence a slice is a [drop] followed by a [take]. *)
Lemma py_slice_in_bounds {A} (l : list A) (a b : Z) :
  0 <= a -> a <= b -> b <= Z.of_nat (length l) ->
  py_slice l a b = take (Z.to_nat (b - a)) (drop (Z.to_nat a) l).
Proof.
  intros Ha Hab Hb. unfold py_slice, slice_bound.
  destruct (Z.ltb_spec a 0), (Z.ltb_spec b 0); try lia.
  by rewrite !Z.min_l by lia.
Qed.

Lemma crop_in_bounds_eq (img : image) (width height x y w h : Z) :
  Z.of_nat (length img) = height ->
  Forall (fun row => Z.of_nat (length row) = width) img ->
  0 <= x -> 0 <= y -> 0 < w -> 0 < h ->
  x + w <= width -> y + h <= height ->
  crop img x y w h =
    (fun row => take (Z.to_nat w) (drop (Z.to_nat x) row))
      <$> take (Z.to_nat h) (drop (Z.to_nat y) img).
Proof.
  intros Hh Hw Hx Hy Hw0 Hh0 Hxw Hyh. unfold crop.
  rewrite py_slice_in_bounds by lia.
  replace (y + h - y) with h by lia.
  apply list_eq. intros i. rewrite !list_lookup_fmap.
  destruct (take _ _ !! i) as [row|] eqn:Hrow; [simpl|done].
  assert (Z.of_nat (length row) = width) as Hlen.
  { apply lookup_take_Some in Hrow as [Hrow _].
    rewrite lookup_drop in Hrow.
    by eapply (proj1 (Forall_lookup _ _) Hw). }
  rewrite py_slice_in_bounds by lia.
  by replace (x + w - x) with w by lia.
Qed.

(** C8: cropping is a total function of the pixel grid and the box.  For
    a box of positive width and height that lies within the grid, the
    crop has [h] rows of [w] pixels and its pixel in row [i], column [j]
    is the pixel of the source in row [y + i], column [x + j]: the crop is
    the sub-image on rows [y .. y+h) and columns [x .. x+w); the source
    grid is a value and is not changed. *)
Theorem crop_in_bounds (img : image) (width height x y w h : Z) :
  Z.of_nat (length img) = height ->
  Forall (fun row => Z.of_nat (length row) = width) img ->
  0 <= x -> 0 <= y -> 0 < w -> 0 < h ->
  x + w <= width -> y + h <= height ->
  Z.of_nat (length (crop img x y w h)) = h
  /\ Forall (fun row => Z.of_nat (length row) = w) (crop img x y w h)
  /\ forall i j, 0 <= i < h -> 0 <= j < w ->
       exists px : pixel,
         img !! Z.to_nat (y + i) ≫= (.!! Z.to_nat (x + j)) = Some px
         /\ crop img x y w h !! Z.to_nat i ≫= (.!! Z.to_nat j) = Some px.
Proof.
  intros Hh Hw Hx Hy Hw0 Hh0 Hxw Hyh.
  rewrite (crop_in_bounds_eq img width height) by assumption.
  assert (forall i, 0 <= i < h ->
            exists row, img !! Z.to_nat (y + i) = Some row
                        /\ Z.of_nat (length row) = width) as Hrows.
  { intros i Hi.
    destruct (lookup_lt_is_Some_2 img (Z.to_nat (y + i))) as [row Hrow];
      [lia|].
    exists row. split; [done|].
    by eapply (proj1 (Forall_lookup _ _) Hw). }
  split; [|split].
  - rewrite length_fmap, length_take, length_drop. lia.
  - apply Forall_fmap, Forall_take, Forall_drop.
    eapply Forall_impl; [exact Hw|]. intros row Hrow.
    unfold compose. simpl in *.
    rewrite length_take, length_drop. lia.
  - intros i j Hi Hj.
    destruct (Hrows i Hi) as (row & Hrow & Hlen).
    destruct (lookup_lt_is_Some_2 row (Z.to_nat (x + j))) as [px Hpx];
      [lia|].
    exists px. rewrite Hrow. simpl. split; [exact Hpx|].
    rewrite list_lookup_fmap, lookup_take_lt, lookup_drop by lia.
    replace (Z.to_nat y + Z.to_nat i)%nat with (Z.to_nat (y + i)) by lia.
    rewrite Hrow. simpl.
    rewrite lookup_take_lt, lookup_drop by lia.
    by replace (Z.to_nat x + Z.to_nat j)%nat with (Z.to_nat (x + j)) by lia.
Qed.

End Cropper.

(** ** The face locator *)

Section Locator.

Context (W : World).

(** C7: for an image that can be read, with [faces] the regions the
    detector returns when called with scale factor 1.1, 5 neighbours and
    the minimum size 50 by 50: [extract_face] fails with "No face
    detected in the image" exactly when [faces] is empty; otherwise the
    first region of [faces] is the one cropped and written under the
    derived path, and, the detector honouring its minimum size, that
    region is at least 50 by 50. *)
Theorem face_locator p σ img faces :
  honours_minSize W ->
  σ !! p ≫= imdecode W = Some img ->
  detectMultiScale W (cvtColor_gray W img) 1.1%float 5 (50, 50)
    = inr faces ->
  (extract_face W (Some p) σ
     = (inr (None, Some "No face detected in the image"), σ)
   <-> faces = [])
  /\ forall x y w h rest,
       faces = Box x y w h :: rest ->
       50 <= w /\ 50 <= h /\
       let out := PyStr.replace "." "_cropped." p in
       extract_face W (Some p) σ =
         match imencode W out (crop img x y w h) with
         | inl e => (inl e, σ)
         | inr data =>
             (inr (Some out, None),
              match open_wb W out with
              | None => <[out := data]> σ
              | Some _ => σ
              end)
         end.
Proof.
  intros Hmin Himg Hdet.
  assert (forall x y w h rest,
            faces = Box x y w h :: rest ->
            extract_face W (Some p) σ =
              match imencode W (PyStr.replace "." "_cropped." p)
                      (crop img x y w h) with
              | inl e => (inl e, σ)
              | inr data =>
                  (inr (Some (PyStr.replace "." "_cropped." p), None),
                   match open_wb W (PyStr.replace "." "_cropped." p) with
                   | None => <[PyStr.replace "." "_cropped." p := data]> σ
                   | Some _ => σ
                   end)
              end) as Hfirst.
  { intros x y w h rest ->. run. rewrite Himg, Hdet. simpl.
    destruct (imencode W _ _); [done|]. by destruct (open_wb W _). }
  split.
  - split.
    + destruct faces as [|[x y w h] rest]; [done|].
      rewrite (Hfirst x y w h rest eq_refl).
      destruct (imencode W _ _); discriminate.
    + intros ->. run. by rewrite Himg, Hdet.
  - intros x y w h rest Hf.
    destruct (Hmin _ _ _ _ _ (Box x y w h) Hdet) as [Hw Hh].
    { rewrite Hf. by left. }
    simpl in Hw, Hh. split; [exact Hw|]. split; [exact Hh|].
    exact (Hfirst x y w h rest Hf).
Qed.

End Locator.

(** The demonstration detector drops the candidates under the minimum
    size it is given. *)
Lemma demo_honours_minSize : honours_minSize Demo.world.
Proof.
  intros gray sf mn ms faces b Hd Hb. simpl in Hd.
  unfold Demo.detectMultiScale in Hd.
  destruct gray as [|[|c row] rows]; try discriminate.
  case_bool_decide; simplify_eq.
  - by apply elem_of_nil in Hb.
  - by apply list_elem_of_filter in Hb as [? _].
Qed.

(** In the demonstration world the detector reports two regions in the
    image full of [A]; the first one is cropped. *)
Lemma face_locator_witness :
  extract_face Demo.world (Some "uploads/a.png") Demo.disk
    = (inr (Some "uploads/a_cropped.png", None), Demo.disk1)
  /\ crop (Demo.filled Byte.x41) 4 6 50 52
      = replicate 52 (replicate 50 (Byte.x41, Byte.x41, Byte.x41)).
Proof.
  destruct (face_locator Demo.world "uploads/a.png" Demo.disk
              (Demo.filled Byte.x41) [Box 4 6 50 52; Box 0 0 60 60]
              demo_honours_minSize)
    as [_ Hfirst]; [vm_compute; reflexivity | vm_compute; reflexivity|].
  destruct (Hfirst 4 6 50 52 [Box 0 0 60 60] eq_refl) as (_ & _ & Hx).
  split; [|vm_compute; reflexivity].
  rewrite Hx. vm_compute. reflexivity.
Defined.

(** A box of two by two inside the three by four grid. *)
Lemma crop_in_bounds_witness :
  crop Demo.grid 1 1 2 2
    = [ [(Byte.x11, Byte.x11, Byte.x11); (Byte.x12, Byte.x12, Byte.x12)];
        [(Byte.x21, Byte.x21, Byte.x21); (Byte.x22, Byte.x22, Byte.x22)] ]
  /\ Z.of_nat (length (crop Demo.grid 1 1 2 2)) = 2
  /\ exists px : pixel,
       Demo.grid !! 2%nat ≫= (.!! 2%nat) = Some px
       /\ crop Demo.grid 1 1 2 2 !! 1%nat ≫= (.!! 1%nat) = Some px.
Proof.
  destruct (crop_in_bounds Demo.grid 4 3 1 1 2 2) as (Hlen & _ & Hpx);
    [reflexivity | repeat constructor | lia | lia | lia | lia | lia | lia |].
  split; [reflexivity|]. split; [exact Hlen|].
  exact (Hpx 1 1 ltac:(lia) ltac:(lia)).
Defined.

(** ** Storing an upload *)

Section Upload.

Context (W : World).

(** [split] cuts at the first separator and goes on with the rest. *)
Lemma split_unfold sep s :
  PyStr.split sep s =
    PyStr.before_first sep s
      :: from_option (PyStr.split sep) [] (PyStr.after_first sep s).
Proof.
  induction s as [|c s IH]; [reflexivity|].
  simpl. destruct (Ascii.eqb c sep); [reflexivity|].
  rewrite IH. reflexivity.
Qed.

(** The second piece of a split: what lies between the first separator
    and the next one, or the end. *)
Lemma split_second sep s :
  PyStr.split sep s !! 1%nat =
    PyStr.before_first sep <$> PyStr.after_first sep s.
Proof.
  rewrite split_unfold. simpl.
  destruct (PyStr.after_first sep s) as [rest|]; [|reflexivity].
  simpl. by rewrite split_unfold.
Qed.

(** C6, as the code has it: a string that starts with [data:image] is cut
    at its commas and the piece between the first comma and the next one
    (the whole remainder when there is no further comma) is decoded; with
    that prefix and no comma at all the upload is refused with an error;
    any other string is decoded whole.  The decoded bytes are written under
    the upload folder, and a text the decoder rejects, or a file that
    cannot be opened, gives an error and no file. *)
Theorem data_uri_prefix_stripped (base64_string : string) filename σ :
  save_base64_image W base64_string filename σ =
    let part :=
      if PyStr.startswith "data:image" base64_string
      then PyStr.before_first "," <$> PyStr.after_first "," base64_string
      else Some base64_string in
    let file_path := path_join UPLOAD_FOLDER filename in
    match part with
    | None => (inr (None, Some "list index out of range"), σ)
    | Some text =>
        match b64decode W text with
        | inl e => (inr (None, Some e), σ)
        | inr image_data =>
            match open_wb W file_path with
            | Some e => (inr (None, Some e), σ)
            | None =>
                (inr (Some file_path, None), <[file_path := image_data]> σ)
            end
        end
    end.
Proof.
  run. rewrite split_second.
  destruct (PyStr.startswith _ _); simpl.
  - destruct (PyStr.after_first _ _) as [rest|]; simpl; [|reflexivity].
    destruct (b64decode W _); [reflexivity|].
    by destruct (open_wb W _).
  - destruct (b64decode W _); [reflexivity|].
    by destruct (open_wb W _).
Qed.

End Upload.

(** A data URI with a second comma: what follows the first comma is
    [QUJD,REVG], which decodes to [ABCDEF]; the file holds [ABC], the
    decoding of [QUJD] alone. *)
Lemma second_comma_cuts_payload :
  PyStr.startswith "data:image" "data:image/png;base64,QUJD,REVG" = true
  /\ PyStr.after_first "," "data:image/png;base64,QUJD,REVG"
     = Some "QUJD,REVG"
  /\ Demo.b64decode "QUJD,REVG"
     = inr [Byte.x41; Byte.x42; Byte.x43; Byte.x44; Byte.x45; Byte.x46]
  /\ save_base64_image Demo.world "data:image/png;base64,QUJD,REVG"
       "f.png" ∅
     = (inr (Some "uploads/f.png", None),
        {["uploads/f.png" := [Byte.x41; Byte.x42; Byte.x43]]}).
Proof. repeat split; vm_compute; reflexivity. Qed.


(** ** File names *)

Section Names.

Lemma app_cons c a b : String c a +:+ b = String c (a +:+ b).
Proof. reflexivity. Qed.

Lemma app_nil_l a : "" +:+ a = a.
Proof. reflexivity. Qed.

Lemma str_app_assoc a b c : (a +:+ b) +:+ c = a +:+ b +:+ c.
Proof.
  induction a as [|x a IH]; [reflexivity|].
  rewrite !app_cons. by rewrite IH.
Qed.

Lemma chars_app a b : chars (a +:+ b) = chars a ++ chars b.
Proof.
  induction a as [|x a IH]; [reflexivity|].
  rewrite app_cons. simpl. by rewrite IH.
Qed.

Lemma chars_inj a b : chars a = chars b -> a = b.
Proof.
  intros H. rewrite <- (String.string_of_list_ascii_of_string a),
    <- (String.string_of_list_ascii_of_string b). by rewrite H.
Qed.

Lemma chars_length s : length (chars s) = String.length s.
Proof. induction s; simpl; congruence. Qed.

(** Two texts with endings of the same length are equal piecewise. *)
Lemma str_app_inj_2 a b c d :
  String.length b = String.length d ->
  a +:+ b = c +:+ d -> a = c /\ b = d.
Proof.
  intros Hlen Heq. apply (f_equal chars) in Heq. rewrite !chars_app in Heq.
  apply app_inj_2 in Heq as [H1 H2]; [|by rewrite !chars_length].
  split; by apply chars_inj.
Qed.

(** Of two endings of one text, one is an ending of the other. *)
Lemma ends_with_clash s1 s2 p :
  ends_with s1 p -> ends_with s2 p ->
  chars s1 `suffix_of` chars s2 \/ chars s2 `suffix_of` chars s1.
Proof.
  intros [x ->] [y Hy]. apply (f_equal chars) in Hy.
  rewrite !chars_app in Hy.
  apply app_eq_inv in Hy as [(k & _ & ->)|(k & _ & ->)].
  - left. by apply suffix_app_r.
  - right. by apply suffix_app_r.
Qed.

Lemma ends_with_app x suf s : ends_with suf s -> ends_with suf (x +:+ s).
Proof. intros [y ->]. exists (x +:+ y). by rewrite str_app_assoc. Qed.

Lemma occurs_length a s : occurs a s -> (String.length a <= String.length s)%nat.
Proof.
  intros (x & y & ->). rewrite <- !chars_length, !chars_app, !length_app. lia.
Qed.

Lemma replace_app old new a b :
  PyStr.replace old new (a +:+ b)
  = PyStr.replace old new a +:+ PyStr.replace old new b.
Proof.
  induction a as [|c a IH]; [reflexivity|].
  rewrite app_cons. simpl. rewrite IH.
  destruct (Ascii.eqb c old); [by rewrite str_app_assoc|reflexivity].
Qed.

Lemma replace_absent old new s :
  PyStr.mem old s = false -> PyStr.replace old new s = s.
Proof.
  induction s as [|c s IH]; [reflexivity|]. simpl.
  destruct (Ascii.eqb c old); [discriminate|]. simpl.
  intros H. by rewrite IH.
Qed.

(** A UUID text holds no dot. *)
Lemma uuid_text_no_dot g : uuid_text g = true -> PyStr.mem "." g = false.
Proof.
  unfold uuid_text. intros [_ H]%andb_prop. revert H.
  induction g as [|c g IH]; [reflexivity|]. simpl.
  intros [Hc Hg]%andb_prop. rewrite (IH Hg), orb_false_r.
  destruct (Ascii.eqb_spec c "."); [subst; discriminate|reflexivity].
Qed.

Lemma uuid_text_length g : uuid_text g = true -> String.length g = 36%nat.
Proof.
  unfold uuid_text. intros [H _]%andb_prop. by apply Nat.eqb_eq in H.
Qed.

(** The upload folder is put in front of a relative name. *)
Lemma path_join_uploads b :
  path_join UPLOAD_FOLDER b = b
  \/ path_join UPLOAD_FOLDER b = "uploads/" +:+ b.
Proof.
  unfold path_join. destruct (PyStr.startswith "/" b); [by left|by right].
Qed.

(** Each path of a request is the identifier between a front part and
    one of the four endings. *)
Lemma request_paths_shape user_id g p :
  PyStr.mem "." g = false ->
  p ∈ request_paths user_id g ->
  exists front ending, p = front +:+ g +:+ ending /\ ending ∈ path_endings.
Proof.
  intros Hg Hp. unfold request_paths, license_name, selfie_name in Hp.
  set (r := PyStr.replace "." "_cropped.") in *.
  assert (forall x y, r (x +:+ g +:+ y) = r x +:+ g +:+ r y) as Hr.
  { intros x y. unfold r. by rewrite !replace_app, (replace_absent _ _ g). }
  assert (forall pre, pre +:+ user_id +:+ "_" +:+ g +:+ "_license.png"
                      = (pre +:+ user_id +:+ "_") +:+ g +:+ "_license.png")
    as Hl by (intros; by rewrite !str_app_assoc).
  assert (forall pre, pre +:+ user_id +:+ "_" +:+ g +:+ "_selfie.png"
                      = (pre +:+ user_id +:+ "_") +:+ g +:+ "_selfie.png")
    as Hs by (intros; by rewrite !str_app_assoc).
  unfold path_endings.
  repeat (apply elem_of_cons in Hp as [->|Hp]); [| | | |by apply elem_of_nil in Hp].
  - destruct (path_join_uploads (user_id +:+ "_" +:+ g +:+ "_license.png"))
      as [->| ->].
    + rewrite <- (app_nil_l (user_id +:+ _)), Hl. set_solver.
    + rewrite Hl. set_solver.
  - destruct (path_join_uploads (user_id +:+ "_" +:+ g +:+ "_selfie.png"))
      as [->| ->].
    + rewrite <- (app_nil_l (user_id +:+ _)), Hs. set_solver.
    + rewrite Hs. set_solver.
  - destruct (path_join_uploads (user_id +:+ "_" +:+ g +:+ "_license.png"))
      as [->| ->].
    + rewrite <- (app_nil_l (user_id +:+ _)), Hl, Hr.
      do 2 eexists. split; [reflexivity|]. set_solver.
    + rewrite Hl, Hr. do 2 eexists. split; [reflexivity|]. set_solver.
  - destruct (path_join_uploads (user_id +:+ "_" +:+ g +:+ "_selfie.png"))
      as [->| ->].
    + rewrite <- (app_nil_l (user_id +:+ _)), Hs, Hr.
      do 2 eexists. split; [reflexivity|]. set_solver.
    + rewrite Hs, Hr. do 2 eexists. split; [reflexivity|]. set_solver.
Qed.

Lemma not_suffix (l1 l2 : list ascii) :
  bool_decide (l1 `suffix_of` l2) = false -> ~ l1 `suffix_of` l2.
Proof. apply bool_decide_eq_false. Qed.

(** No two of the four endings fit the end of one text. *)
Lemma endings_exclusive s1 s2 p :
  s1 ∈ path_endings -> s2 ∈ path_endings ->
  ends_with s1 p -> ends_with s2 p -> s1 = s2.
Proof.
  intros H1 H2 E1 E2.
  destruct (ends_with_clash _ _ _ E1 E2) as [H|H]; revert H;
    unfold path_endings in *;
    repeat (apply elem_of_cons in H1 as [->|H1]);
    try (by apply elem_of_nil in H1);
    repeat (apply elem_of_cons in H2 as [->|H2]);
    try (by apply elem_of_nil in H2);
    try reflexivity;
    intros H; exfalso; revert H; apply not_suffix;
    vm_compute; reflexivity.
Qed.

(** The endings of the four paths, in the order of [request_paths]. *)
Lemma request_paths_endings user_id g :
  Forall2 ends_with path_endings (request_paths user_id g).
Proof.
  unfold request_paths, license_name, selfie_name, path_endings.
  set (r := PyStr.replace "." "_cropped.").
  assert (forall x suf, ends_with suf x ->
            ends_with suf (path_join UPLOAD_FOLDER x)) as Hj.
  { intros x suf H. destruct (path_join_uploads x) as [->| ->];
      [done|by apply ends_with_app]. }
  assert (forall x suf, ends_with suf x -> ends_with (r suf) (r x)) as Hr.
  { intros x suf [y ->]. exists (r y). unfold r. by rewrite replace_app. }
  assert (ends_with "_license.png"
            (user_id +:+ "_" +:+ g +:+ "_license.png")) as Hl.
  { exists (user_id +:+ "_" +:+ g). by rewrite !str_app_assoc. }
  assert (ends_with "_selfie.png"
            (user_id +:+ "_" +:+ g +:+ "_selfie.png")) as Hs.
  { exists (user_id +:+ "_" +:+ g). by rewrite !str_app_assoc. }
  repeat constructor.
  - by apply Hj.
  - by apply Hj.
  - change "_license_cropped.png" with (r "_license.png"). by apply Hr, Hj.
  - change "_selfie_cropped.png" with (r "_selfie.png"). by apply Hr, Hj.
Qed.

(** Requests with different identifiers share no path. *)
Lemma request_paths_disjoint u1 g1 u2 g2 p :
  uuid_text g1 = true -> uuid_text g2 = true -> g1 <> g2 ->
  p ∈ request_paths u1 g1 -> p ∉ request_paths u2 g2.
Proof.
  intros Hg1 Hg2 Hne H1 H2.
  apply request_paths_shape in H1 as (x1 & s1 & E1 & Hs1);
    [|by apply uuid_text_no_dot].
  apply request_paths_shape in H2 as (x2 & s2 & E2 & Hs2);
    [|by apply uuid_text_no_dot].
  assert (s1 = s2) as <-.
  { apply (endings_exclusive s1 s2 p); [done|done| |].
    - exists (x1 +:+ g1). by rewrite str_app_assoc.
    - exists (x2 +:+ g2). by rewrite str_app_assoc. }
  rewrite E1, <- !str_app_assoc in E2.
  apply str_app_inj_2 in E2 as [E2 _]; [|done].
  apply str_app_inj_2 in E2 as [_ E2];
    [done|by rewrite !uuid_text_length].
Qed.

(** The identifier occurs in each path of the request. *)
Lemma request_paths_occurs user_id g p :
  uuid_text g = true -> p ∈ request_paths user_id g -> occurs g p.
Proof.
  intros Hg Hp.
  apply request_paths_shape in Hp as (x & s & -> & _);
    [|by apply uuid_text_no_dot].
  by exists x, s.
Qed.

(** The four paths of a request are different files. *)
Lemma request_paths_NoDup user_id g : NoDup (request_paths user_id g).
Proof.
  pose proof (request_paths_endings user_id g) as H.
  unfold request_paths, path_endings in *.
  set (l := path_join UPLOAD_FOLDER (license_name user_id g)) in *.
  set (s := path_join UPLOAD_FOLDER (selfie_name user_id g)) in *.
  repeat match goal with
         | H : Forall2 _ (_ :: _) (_ :: _) |- _ =>
             apply Forall2_cons_1 in H as [? H]
         end.
  assert (forall s1 s2 p q, ends_with s1 p -> ends_with s2 q ->
            s1 ∈ path_endings -> s2 ∈ path_endings -> s1 <> s2 -> p <> q)
    as Hne.
  { intros s1 s2 p q E1 E2 I1 I2 Hs ->. apply Hs.
    by apply (endings_exclusive s1 s2 q). }
  repeat constructor; rewrite ?not_elem_of_cons; repeat split;
    try apply not_elem_of_nil;
    (eapply Hne; [eassumption|eassumption| | |discriminate]);
    unfold path_endings; set_solver.
Qed.

End Names.

(** ** What a request writes *)

Section Storage.

Context (W : World).

(* [set_solver] clears hypotheses by name; after an inversion some of the
   names are gone already. *)
Set Warnings "-clear-no-such-hyp".

Lemma writes_within_refl ps (σ : fs) : writes_within ps σ σ.
Proof. by split. Qed.

Lemma writes_within_insert ps p content (σ : fs) :
  p ∈ ps -> writes_within ps σ (<[p := content]> σ).
Proof.
  intros Hp. split.
  - intros q Hq. apply lookup_insert_ne. by intros ->.
  - intros q Hq. destruct (decide (p = q)) as [->|Hne].
    + rewrite lookup_insert_eq. eauto.
    + by rewrite lookup_insert_ne.
Qed.

Lemma writes_within_trans ps (σ1 σ2 σ3 : fs) :
  writes_within ps σ1 σ2 -> writes_within ps σ2 σ3 ->
  writes_within ps σ1 σ3.
Proof.
  intros [H1 H1'] [H2 H2']. split.
  - intros p Hp. by rewrite H2, H1.
  - auto.
Qed.

Lemma writes_within_weaken ps ps' (σ σ' : fs) :
  ps ⊆ ps' -> writes_within ps σ σ' -> writes_within ps' σ σ'.
Proof.
  intros Hsub [H1 H2]. split; [|done].
  intros p Hp. apply H1. intros Hin. by apply Hp, Hsub.
Qed.

(** [save_base64_image] writes at most the file it names, and the path it
    returns is that file, then present. *)
Lemma save_base64_image_frame base64_string filename σ r σ' :
  save_base64_image W base64_string filename σ = (r, σ') ->
  writes_within [path_join UPLOAD_FOLDER filename] σ σ'
  /\ forall p e, r = inr (Some p, e) ->
       p = path_join UPLOAD_FOLDER filename /\ is_Some (σ' !! p).
Proof.
  intros H.
  destruct (save_base64_image_cases W base64_string filename σ)
    as [(content & _ & Hs)|(e & Hs)]; rewrite Hs in H; simplify_eq.
  - split; [apply writes_within_insert; set_solver|].
    intros p e ?; simplify_eq. rewrite lookup_insert_eq. eauto.
  - split; [apply writes_within_refl|]. intros p e' ?; simplify_eq.
Qed.

(** [extract_face] writes at most the cropped copy. *)
Lemma extract_face_frame image_path σ r σ' :
  extract_face W image_path σ = (r, σ') ->
  writes_within (cropped_path image_path) σ σ'.
Proof.
  run. destruct image_path as [p|]; simpl;
    repeat (case_match; simplify_eq/=);
    intros; simplify_eq;
    try apply writes_within_refl;
    apply writes_within_insert; set_solver.
Qed.

(** [match_faces] writes at most the two cropped copies. *)
Lemma match_faces_frame lp sp σ r σ' :
  match_faces W lp sp σ = (r, σ') ->
  writes_within (cropped_path lp ++ cropped_path sp) σ σ'.
Proof.
  unfold match_faces, try_except, bind, DeepFace_distance, ret.
  destruct (extract_face W lp σ) as [r1 σ1] eqn:H1.
  apply extract_face_frame in H1.
  apply (writes_within_weaken _ (cropped_path lp ++ cropped_path sp)) in H1;
    [|set_solver].
  destruct r1 as [e|[[lf|] e1]]; simpl; try (intros; by simplify_eq).
  destruct (extract_face W sp σ1) as [r2 σ2] eqn:H2.
  apply extract_face_frame in H2.
  apply (writes_within_weaken _ (cropped_path lp ++ cropped_path sp)) in H2;
    [|set_solver].
  pose proof (writes_within_trans _ _ _ _ H1 H2) as H12.
  destruct r2 as [e|[[sf|] e2]]; simpl; try (intros; by simplify_eq).
  destruct (DeepFace_verify W _ _ _); simpl; try (intros; by simplify_eq).
  destruct (_ <=? _)%float; intros; by simplify_eq.
Qed.

(** The user id of a payload that has one. *)
Lemma req_user_eq req data user_id :
  get_json req = inr data -> data !! "userId" = Some user_id ->
  req_user W req = format W user_id.
Proof. intros H1 H2. unfold req_user. by rewrite H1, H2. Qed.

(** What [save_base64_image] returns as a path is the file it names. *)
Lemma saved_cropped_path base64_string filename σ lp le σ1 :
  save_base64_image W base64_string filename σ = (inr (lp, le), σ1) ->
  cropped_path lp
    ⊆ [PyStr.replace "." "_cropped." (path_join UPLOAD_FOLDER filename)].
Proof.
  intros H. destruct lp as [p|]; [|set_solver].
  destruct (proj2 (save_base64_image_frame _ _ _ _ _ H) p le eq_refl)
    as [-> _].
  set_solver.
Qed.

(** A request writes at most its four paths. *)
Lemma verify_outcome_frame req unique_id σ resp σ' :
  verify_outcome W req unique_id σ resp σ' ->
  writes_within (request_paths (req_user W req) unique_id) σ σ'.
Proof.
  intros Hout.
  inversion Hout; subst; try apply writes_within_refl.
  - erewrite req_user_eq by eassumption.
    match goal with
    | H : save_base64_image _ _ (license_name _ _) _ = _ |- _ =>
        pose proof (proj1 (save_base64_image_frame _ _ _ _ _ H)) as F1
    end.
    eapply writes_within_weaken; [|exact F1].
    unfold request_paths. clear. set_solver.
  - erewrite req_user_eq by eassumption.
    match goal with
    | H1 : save_base64_image _ _ (license_name _ _) _ = _,
      H2 : save_base64_image _ _ (selfie_name _ _) _ = _,
      H3 : match_faces _ _ _ _ = _ |- _ =>
        pose proof (saved_cropped_path _ _ _ _ _ _ H1) as Hc1;
        pose proof (saved_cropped_path _ _ _ _ _ _ H2) as Hc2;
        pose proof (proj1 (save_base64_image_frame _ _ _ _ _ H1)) as F1;
        pose proof (proj1 (save_base64_image_frame _ _ _ _ _ H2)) as F2;
        pose proof (match_faces_frame _ _ _ _ _ H3) as F3
    end.
    eapply writes_within_trans;
      [eapply writes_within_weaken; [|exact F1]|
       eapply writes_within_trans;
         [eapply writes_within_weaken; [|exact F2]|
          eapply writes_within_weaken; [|exact F3]]];
      unfold request_paths; clear - Hc1 Hc2; set_solver.
Qed.

(** An upload that was stored is not touched by the rest of the
    request. *)
Lemma license_survives req unique_id σ resp σ' lp σ1 :
  verify_outcome W req unique_id σ resp σ' ->
  license_stored W req unique_id σ lp σ1 ->
  is_Some (σ1 !! lp) /\ σ' !! lp = σ1 !! lp.
Proof.
  intros Hout (data & u & l & le & Hj & Hd & Hu & Hl & Hs & Hsave).
  destruct (proj2 (save_base64_image_frame _ _ _ _ _ Hsave) lp le eq_refl)
    as [-> Hin].
  split; [exact Hin|].
  pose proof (request_paths_NoDup (format W u) unique_id) as Hnd.
  unfold request_paths in Hnd.
  apply NoDup_cons in Hnd as [Hnd _].
  rewrite !not_elem_of_cons in Hnd. destruct Hnd as (N1 & N2 & N3 & _).
  inversion Hout; subst; try congruence; same_payload;
    try payload_clash.
  - match goal with
    | H1 : save_base64_image _ _ (license_name _ _) σ
             = (inr (license_path, _), _),
      H2 : save_base64_image _ _ (selfie_name _ _) _ = _,
      H3 : match_faces _ _ _ _ = _ |- _ =>
        rewrite Hsave in H1; injection H1 as <- <- <-;
        pose proof (saved_cropped_path _ _ _ _ _ _ Hsave) as Hc1;
        pose proof (saved_cropped_path _ _ _ _ _ _ H2) as Hc2;
        pose proof (proj1 (save_base64_image_frame _ _ _ _ _ H2)) as [F2 _];
        pose proof (match_faces_frame _ _ _ _ _ H3) as [F3 _]
    end.
    rewrite F3, F2; [reflexivity| |].
    + by rewrite list_elem_of_singleton.
    + intros Hin'. apply elem_of_app in Hin' as [Hin'|Hin'].
      * apply Hc1, list_elem_of_singleton in Hin'. by apply N2.
      * apply Hc2, list_elem_of_singleton in Hin'. by apply N3.
Qed.

Lemma selfie_survives req unique_id σ resp σ' sp σ2 :
  verify_outcome W req unique_id σ resp σ' ->
  selfie_stored W req unique_id σ sp σ2 ->
  is_Some (σ2 !! sp) /\ σ' !! sp = σ2 !! sp.
Proof.
  intros Hout (data & u & l & s & lp & le & σ1 & se & Hj & Hd & Hu & Hl & Hs
               & Hsl & Hle & Hss).
  destruct (proj2 (save_base64_image_frame _ _ _ _ _ Hss) sp se eq_refl)
    as [-> Hin].
  split; [exact Hin|].
  pose proof (request_paths_NoDup (format W u) unique_id) as Hnd.
  unfold request_paths in Hnd.
  apply NoDup_cons in Hnd as [_ Hnd]. apply NoDup_cons in Hnd as [Hnd _].
  rewrite !not_elem_of_cons in Hnd. destruct Hnd as (N1 & N2 & _).
  inversion Hout; subst; try congruence; same_payload; same_save;
    try discriminate; try message_truthy; try payload_clash.
  - match goal with
    | H3 : match_faces _ _ _ _ = _ |- _ =>
        pose proof (saved_cropped_path _ _ _ _ _ _ Hsl) as Hc1;
        pose proof (saved_cropped_path _ _ _ _ _ _ Hss) as Hc2;
        pose proof (match_faces_frame _ _ _ _ _ H3) as [F3 _]
    end.
    rewrite F3; [reflexivity|].
    intros Hin'. apply elem_of_app in Hin' as [Hin'|Hin'].
    + apply Hc1, list_elem_of_singleton in Hin'. by apply N1.
    + apply Hc2, list_elem_of_singleton in Hin'. by apply N2.
Qed.

(** C10: a request only adds files to the scratch storage.  It writes at
    no path but its own four: the two uploads, named from the user id and
    the UUID of the request, and their cropped copies, named by putting
    [_cropped] before the extension; no file is ever removed.  When the
    UUID is fresh, every file present before the request is still there
    with the same content.  An upload that was stored keeps its content
    until the end of the request, whatever fails afterwards.  And two
    requests with different UUIDs have no path in common. *)
Theorem scratch_files_only_created req unique_id σ :
  uuid_text unique_id = true ->
  fresh_uuid unique_id σ ->
  exists resp σ',
    verify W req unique_id σ = (inr resp, σ') /\
    Forall2 ends_with path_endings
      (request_paths (req_user W req) unique_id) /\
    writes_within (request_paths (req_user W req) unique_id) σ σ' /\
    (forall p content, σ !! p = Some content -> σ' !! p = Some content) /\
    (forall lp σ1, license_stored W req unique_id σ lp σ1 ->
       is_Some (σ1 !! lp) /\ σ' !! lp = σ1 !! lp) /\
    (forall sp σ2, selfie_stored W req unique_id σ sp σ2 ->
       is_Some (σ2 !! sp) /\ σ' !! sp = σ2 !! sp) /\
    (forall user_id' unique_id',
       uuid_text unique_id' = true -> unique_id' <> unique_id ->
       forall p, p ∈ request_paths (req_user W req) unique_id ->
                 p ∉ request_paths user_id' unique_id').
Proof.
  intros Hid Hfresh.
  destruct (verify_outcome_spec W req unique_id σ) as (resp & σ' & Hv & Hout).
  exists resp, σ'. split; [exact Hv|].
  pose proof (verify_outcome_frame _ _ _ _ _ Hout) as Hframe.
  split; [apply request_paths_endings|].
  split; [exact Hframe|].
  split; [|split; [|split]].
  - intros p content Hp. destruct Hframe as [Hout_of _].
    rewrite Hout_of; [exact Hp|].
    intros Hin. apply (Hfresh p); [by eexists|].
    by eapply request_paths_occurs.
  - intros lp σ1 Hl. exact (license_survives _ _ _ _ _ _ _ Hout Hl).
  - intros sp σ2 Hs. exact (selfie_survives _ _ _ _ _ _ _ Hout Hs).
  - intros user_id' unique_id' Hid' Hne p Hp.
    eapply request_paths_disjoint; [exact Hid|exact Hid'|congruence|exact Hp].
Qed.

End Storage.

(** No file of the demonstration storage bears the first UUID. *)
Lemma demo_disk_fresh : fresh_uuid Demo.uuid1 Demo.disk.
Proof.
  intros p [content Hp] Hocc. apply occurs_length in Hocc.
  unfold Demo.disk in Hp.
  apply lookup_insert_Some in Hp as [[<- _]|[_ Hp]]; [simpl in Hocc; lia|].
  apply lookup_insert_Some in Hp as [[<- _]|[_ Hp]]; [simpl in Hocc; lia|].
  by rewrite lookup_empty in Hp.
Qed.

(** A request in the demonstration world leaves the stored image as it
    was. *)
Lemma scratch_files_only_created_witness :
  uuid_text Demo.uuid1 = true /\
  exists resp σ',
    verify Demo.world (Demo.post "u1" "QQ==" "Qg==") Demo.uuid1 Demo.disk
      = (inr resp, σ')
    /\ σ' !! "uploads/a.png" = Some [Byte.x41].
Proof.
  split; [reflexivity|].
  destruct (scratch_files_only_created Demo.world
              (Demo.post "u1" "QQ==" "Qg==") Demo.uuid1 Demo.disk
              eq_refl demo_disk_fresh)
    as (resp & σ' & Hv & _ & _ & Hkeep & _).
  exists resp, σ'. split; [exact Hv|].
  apply Hkeep. reflexivity.
Defined.

(** ** Status codes and the order of the checks *)

Section Ordering.

Context (W : World).

(** Facts about one request that cannot hold together. *)
Ltac clash :=
  try congruence;
  same_payload; same_save;
  try discriminate; try congruence; try message_truthy;
  try payload_clash.

(** On a dict the test of line 114 finds a field missing exactly when the
    payload lacks one. *)
Lemma fields_missing_dict_iff fields :
  fields_missing W (JObj fields) = inr true <-> missing_field (JObj fields).
Proof.
  split; [|apply fields_missing_dict].
  unfold missing_field, fields_missing, contains; simpl.
  rewrite ?lookup_dict.
  destruct (fields !! "userId"); [|by left].
  destruct (fields !! "license_base64"); [|by right; left].
  destruct (fields !! "selfie_base64"); [|by right; right].
  rewrite !bool_decide_eq_true_2 by eauto. discriminate.
Qed.

(** The tests and subscripts of a dict do not raise. *)
Lemma dict_never_raises req fields e :
  get_json req = inr (JObj fields) -> ~ handler_raised W req e.
Proof.
  intros Hd [He|(data & Hd' & [Hc|[Hf Hi]])]; [congruence| |];
    rewrite Hd in Hd'; simplify_eq.
  - unfold fields_missing, contains in Hc; simpl in Hc.
    repeat case_match; simplify_eq.
  - destruct (fields !! "userId") as [u|] eqn:Hu.
    + unfold item in Hi. rewrite Hu in Hi. discriminate.
    + rewrite fields_missing_dict in Hf; [discriminate|].
      left. by rewrite lookup_dict.
Qed.

Lemma outcome_400 req unique_id σ body status σ' :
  verify_outcome W req unique_id σ (body, status) σ' ->
  status = 400 <->
    is_json req = false
    \/ (is_json req = true
        /\ exists data, get_json req = inr data
                        /\ (fields_missing W data = inr true
                            \/ upload_refused W data unique_id σ)).
Proof.
  intros Hout. split.
  - intros ->. inversion Hout; subst; auto; right; (split; [done|]);
      eexists; (split; [eassumption|]); auto; right.
    + match goal with S : is_Some _ |- _ => destruct S as [s Hs] end.
      exists user_id, license_base64, s. repeat (split; [done|]).
      left. eauto.
    + exists user_id, license_base64, selfie_base64.
      repeat (split; [done|]). right. eauto 10.
  - intros [Hj|(Hj & data & Hd & [Hm|Hr])];
      inversion Hout; subst; try reflexivity; exfalso; clash.
    all: destruct Hr as (u & l & s & Hu & Hl & Hs
                         & [(e' & Hsl & He)|(lp' & le' & σ1' & e' & Hsl & Hle
                                             & Hss & He)]); clash.
Qed.

Lemma outcome_500 req unique_id σ body status σ' :
  verify_outcome W req unique_id σ (body, status) σ' ->
  status = 500 <-> is_json req = true /\ exists e, handler_raised W req e.
Proof.
  intros Hout. unfold handler_raised. split.
  - intros ->. inversion Hout; subst; (split; [done|]); eauto 10.
  - intros (Hj & e & [He|(data & Hd & [Hc|[Hf Hi]])]);
      inversion Hout; subst; try reflexivity; exfalso; clash.
Qed.

Lemma outcome_200 req unique_id σ body status σ' :
  verify_outcome W req unique_id σ (body, status) σ' ->
  status = 200 <->
    exists lp sp σ2,
      uploads_stored W req unique_id σ lp sp σ2
      /\ match_faces W lp sp σ2 = (inr body, σ').
Proof.
  intros Hout. split.
  - intros ->. inversion Hout; subst.
    exists license_path, selfie_path, σ2. split; [|done].
    unfold uploads_stored. eauto 20.
  - intros (lp & sp & σ2 & (data & u & l & s & le & σ1 & se & Hj & Hd & Hu
                            & Hl & Hs & Hsl & Hle & Hss & Hse) & Hm).
    inversion Hout; subst; try reflexivity; exfalso; clash.
Qed.

(** C5, as the code has it: the client-error status 400 answers a body
    that is not JSON, a payload in which the test of line 114 finds a
    field missing (for a dict: a payload that lacks a field), and an
    upload that cannot be decoded or stored; the server-error status 500
    answers exactly an exception that reaches the handler: the JSON
    parser raising, or a payload that is no dict making the membership
    test of line 114 or the subscript of line 118 raise (a dict raises at
    neither); every other request is answered with status 200 and the
    result of [match_faces], so that an unreadable image, a missing face,
    a scoring error and a distance under the threshold all come back
    under status 200 with [verified] false. *)
Theorem status_mapping req unique_id σ :
  exists body status σ',
    verify W req unique_id σ = (inr (body, status), σ') /\
    (status = 400 \/ status = 200 \/ status = 500) /\
    (status = 400 <->
       is_json req = false
       \/ (is_json req = true
           /\ exists data, get_json req = inr data
                           /\ (fields_missing W data = inr true
                               \/ upload_refused W data unique_id σ))) /\
    (status = 500 <-> is_json req = true /\ exists e, handler_raised W req e)
    /\ (status = 200 <->
         exists lp sp σ2,
           uploads_stored W req unique_id σ lp sp σ2
           /\ match_faces W lp sp σ2 = (inr body, σ')) /\
    (status <> 200 -> verified body = false /\ similarity_score body = None)
    /\ (is_Some (error body) -> verified body = false)
    /\ (forall fields,
          get_json req = inr (JObj fields) ->
          status <> 500
          /\ (fields_missing W (JObj fields) = inr true
              <-> missing_field (JObj fields))).
Proof.
  destruct (verify_outcome_spec W req unique_id σ)
    as ([body status] & σ' & Hv & Hout).
  exists body, status, σ'. split; [exact Hv|].
  split; [inversion Hout; auto|].
  split; [by eapply outcome_400|].
  split; [by eapply outcome_500|].
  split; [by eapply outcome_200|].
  split; [|split].
  - inversion Hout; subst; simpl; auto. intros []. reflexivity.
  - inversion Hout; subst; simpl; auto.
    match goal with H : match_faces _ _ _ _ = _ |- _ =>
      destruct (match_faces_shape _ _ _ _ _ _ H)
        as [[d ->]|[[d ->]|[e' ->]]] end; simpl; auto.
    by intros [].
  - intros fields Hd. split; [|apply fields_missing_dict_iff].
    intros H5. apply (outcome_500 _ _ _ _ _ _ Hout) in H5 as (_ & e & He).
    by eapply dict_never_raises.
Qed.

(** An image that cannot be read stops [match_faces] at the licence. *)
Lemma match_faces_unreadable_license lp sp σ :
  σ !! lp ≫= imdecode W = None ->
  match_faces W (Some lp) sp σ =
    (inr (Result false
            (Some "License image error: Could not read image") None), σ).
Proof.
  intros H. unfold match_faces, extract_face, imread, try_except, bind.
  rewrite H. reflexivity.
Qed.

(** C4, as the code has it: the two uploads are stored before either
    image is read.  (a) A licence text that cannot be decoded or stored
    ends the request with the licence error, status 400, and nothing is
    written: the selfie is not looked at.  (b) A licence that is stored
    but is not a readable image: the selfie is stored first; if that
    succeeds the request ends with "License image error: Could not read
    image" under status 200, with the storage as the two uploads left it,
    so the selfie is neither read nor cropped; if storing the selfie fails
    with a message the request ends with the selfie error instead. *)
Theorem license_failure_short_circuits req unique_id σ data user_id
    license_base64 selfie_base64 :
  is_json req = true ->
  get_json req = inr data ->
  data !! "userId" = Some user_id ->
  data !! "license_base64" = Some license_base64 ->
  data !! "selfie_base64" = Some selfie_base64 ->
  (forall e,
     save_base64_image W license_base64 (license_name (format W user_id) unique_id) σ
       = (inr (None, Some e), σ) ->
     e <> "" ->
     verify W req unique_id σ =
       (inr (Result false (Some ("License image error: " +:+ e)) None, 400),
        σ))
  /\ (forall content σ1,
        let lp := path_join UPLOAD_FOLDER (license_name (format W user_id) unique_id) in
        save_base64_image W license_base64 (license_name (format W user_id) unique_id) σ
          = (inr (Some lp, None), σ1) ->
        σ1 !! lp = Some content ->
        imdecode W content = None ->
        (forall sp se σ2,
           save_base64_image W selfie_base64
             (selfie_name (format W user_id) unique_id) σ1 = (inr (sp, se), σ2) ->
           truthy se = false ->
           verify W req unique_id σ =
             (inr (Result false
                     (Some "License image error: Could not read image") None,
                   200), σ2))
        /\ (forall e,
              save_base64_image W selfie_base64
                (selfie_name (format W user_id) unique_id) σ1
                = (inr (None, Some e), σ1) ->
              e <> "" ->
              verify W req unique_id σ =
                (inr (Result false (Some ("Selfie image error: " +:+ e)) None,
                      400), σ1))).
Proof.
  intros Hj Hd Hu Hl Hs.
  assert (forall lp le σ1,
            save_base64_image W license_base64
              (license_name (format W user_id) unique_id) σ = (inr (lp, le), σ1) ->
            verify W req unique_id σ =
              if truthy le
              then (inr (Result false
                           (Some ("License image error: " +:+ fmt le)) None,
                         400), σ1)
              else
                match save_base64_image W selfie_base64
                        (selfie_name (format W user_id) unique_id) σ1 with
                | (inr (sp, se), σ2) =>
                    if truthy se
                    then (inr (Result false
                                 (Some ("Selfie image error: " +:+ fmt se))
                                 None, 400), σ2)
                    else
                      match match_faces W lp sp σ2 with
                      | (inr r, σ3) => (inr (r, 200), σ3)
                      | (inl e, σ3) =>
                          (inr (Result false
                                  (Some ("Server error: " +:+ e)) None, 500),
                           σ3)
                      end
                | (inl e, σ2) =>
                    (inr (Result false (Some ("Server error: " +:+ e)) None,
                          500), σ2)
                end) as Hrun.
  { intros lp le σ1 Hsl.
    unfold verify, try_except, bind, call, subscript, jsonify, ret.
    rewrite Hj, Hd. simpl.
    rewrite (fields_missing_present W data) by (rewrite ?Hu, ?Hl, ?Hs; eauto).
    rewrite (item_lookup W _ _ _ Hu), (item_lookup W _ _ _ Hl),
      (item_lookup W _ _ _ Hs).
    unfold license_name, selfie_name in *. rewrite Hsl.
    destruct (truthy le); [reflexivity|].
    destruct (save_base64_image W selfie_base64 _ σ1) as [[e|[sp se]] σ2];
      [reflexivity|].
    destruct (truthy se); [reflexivity|].
    by destruct (match_faces W lp sp σ2) as [[e|r] σ3]. }
  split.
  - intros e Hsl He. rewrite (Hrun _ _ _ Hsl).
    destruct e; [done|reflexivity].
  - intros content σ1 lp Hsl Hc Him. split.
    + intros sp se σ2 Hss Hse. rewrite (Hrun _ _ _ Hsl), Hss, Hse. simpl.
      rewrite match_faces_unreadable_license; [reflexivity|].
      destruct (proj1 (save_base64_image_frame W _ _ _ _ _ Hss)) as [F _].
      rewrite F, Hc; [exact Him|].
      rewrite list_elem_of_singleton.
      pose proof (request_paths_NoDup (format W user_id) unique_id) as Hnd.
      unfold request_paths in Hnd. apply NoDup_cons in Hnd as [Hnd _].
      rewrite !not_elem_of_cons in Hnd. by destruct Hnd as [? _].
    + intros e Hss He. rewrite (Hrun _ _ _ Hsl), Hss. simpl.
      destruct e; [done|reflexivity].
Qed.

End Ordering.

(** In the demonstration world a licence upload that decodes to three
    bytes, which the codec does not read, and a good selfie: the selfie
    file is written and the answer is the licence error. *)
Lemma license_failure_short_circuits_witness :
  verify Demo.world (Demo.post "u1" "QUJD" "QQ==") Demo.uuid1 ∅ =
    (inr (Result false
            (Some "License image error: Could not read image") None, 200),
     <[path_join UPLOAD_FOLDER (selfie_name "u1" Demo.uuid1) := [Byte.x41]]>
       (<[path_join UPLOAD_FOLDER (license_name "u1" Demo.uuid1)
          := [Byte.x41; Byte.x42; Byte.x43]]> ∅)).
Proof.
  destruct (license_failure_short_circuits Demo.world
              (Demo.post "u1" "QUJD" "QQ==") Demo.uuid1 ∅
              (Demo.payload "u1" "QUJD" "QQ==") "u1" "QUJD" "QQ=="
              eq_refl eq_refl eq_refl eq_refl eq_refl) as [_ Hb].
  destruct (Hb [Byte.x41; Byte.x42; Byte.x43]
              (<[path_join UPLOAD_FOLDER (license_name "u1" Demo.uuid1)
                 := [Byte.x41; Byte.x42; Byte.x43]]> ∅))
    as [Hgood _]; [vm_compute; reflexivity | vm_compute; reflexivity
                  | reflexivity |].
  apply (Hgood (Some (path_join UPLOAD_FOLDER (selfie_name "u1" Demo.uuid1)))
           None); [vm_compute; reflexivity | reflexivity].
Defined.

(** The licence upload [QUJD] decodes to three bytes that are no image.
    With a selfie that is not valid base64 the answer is the selfie error;
    with a good selfie the answer is the licence error and the selfie file
    is on disk: the answer depends on the selfie, and the selfie is written
    before the licence is read. *)
Lemma selfie_stored_before_license_read :
  Demo.b64decode "QUJD" = inr [Byte.x41; Byte.x42; Byte.x43]
  /\ Demo.imdecode [Byte.x41; Byte.x42; Byte.x43] = None
  /\ (verify Demo.world (Demo.post "u1" "QUJD" "abc") Demo.uuid1 ∅).1
     = inr (Result false
              (Some "Selfie image error: Incorrect padding") None, 400)
  /\ (verify Demo.world (Demo.post "u1" "QUJD" "QQ==") Demo.uuid1 ∅).1
     = inr (Result false
              (Some "License image error: Could not read image") None, 200)
  /\ (verify Demo.world (Demo.post "u1" "QUJD" "QQ==") Demo.uuid1 ∅).2
       !! path_join UPLOAD_FOLDER (selfie_name "u1" Demo.uuid1)
     = Some [Byte.x41].
Proof. repeat split; vm_compute; reflexivity. Qed.

(** A JSON request with its three fields whose licence text is not valid
    base64 is answered with status 400. *)
Lemma undecodable_upload_is_client_error :
  is_json (Demo.post "u1" "abc" "QQ==") = true
  /\ get_json (Demo.post "u1" "abc" "QQ==")
     = inr (Demo.payload "u1" "abc" "QQ==")
  /\ ~ missing_field (Demo.payload "u1" "abc" "QQ==")
  /\ verify Demo.world (Demo.post "u1" "abc" "QQ==") Demo.uuid1 ∅
     = (inr (Result false
               (Some "License image error: Incorrect padding") None, 400),
        ∅).
Proof.
  split; [reflexivity|]. split; [reflexivity|]. split.
  - intros [H|[H|H]]; vm_compute in H; discriminate.
  - vm_compute. reflexivity.
Qed.


(** ** Further properties of the pipeline *)

Section Answers.

Context (W : World).

(** A distance in the result of [match_faces] fixes the verdict. *)
Lemma match_faces_verdict lp sp σ r σ' d :
  match_faces W lp sp σ = (inr r, σ') ->
  similarity_score r = Some d ->
  verified r = (SIMILARITY_THRESHOLD <=? d)%float.
Proof.
  unfold match_faces, try_except, bind.
  destruct (extract_face W lp σ) as [[e|[[lf|] e1]] σ1];
    simpl; unfold ret; try (intros; simplify_eq/=; fail).
  destruct (extract_face W sp σ1) as [[e|[[sf|] e2]] σ2];
    simpl; unfold ret; try (intros; simplify_eq/=; fail).
  unfold DeepFace_distance.
  destruct (DeepFace_verify W _ _ _) as [e|d'];
    simpl; try (intros; simplify_eq/=; fail).
  destruct (_ <=? _)%float eqn:Hd; intros; simplify_eq/=; by rewrite Hd.
Qed.

(** X1: what the endpoint answers is sound with respect to the threshold.
    A response is verified exactly when it carries no error; a verified
    response has status 200; and whenever a response carries a distance,
    it has status 200 and it is verified exactly when the distance is at
    least [SIMILARITY_THRESHOLD]. *)
Theorem response_sound req unique_id σ :
  exists body status σ',
    verify W req unique_id σ = (inr (body, status), σ') /\
    (verified body = true <-> error body = None) /\
    (verified body = true -> status = 200) /\
    (forall d, similarity_score body = Some d ->
       status = 200
       /\ verified body = (SIMILARITY_THRESHOLD <=? d)%float).
Proof.
  destruct (verify_outcome_spec W req unique_id σ)
    as ([body status] & σ' & Hv & Hout).
  exists body, status, σ'. split; [exact Hv|].
  inversion Hout; subst; simpl; try (repeat split; intros; by simplify_eq).
  match goal with H : match_faces _ _ _ _ = _ |- _ =>
    pose proof (fun d => match_faces_verdict _ _ _ _ _ d H) as Hverdict;
    destruct (match_faces_shape _ _ _ _ _ _ H)
      as [[d ->]|[[d ->]|[e' ->]]] end; simpl in *;
    repeat split; intros; simplify_eq; auto.
Qed.

(** X2: when the licence yields no face, because it cannot be read, shows
    no face or makes the extraction raise, [match_faces] does not look at
    the selfie: it gives the same answer and leaves the same storage for
    any two selfie paths, and the storage is the one the licence
    extraction left. *)
Theorem license_failure_ignores_selfie lic sel sel' σ :
  (forall lf e, (extract_face W lic σ).1 <> inr (Some lf, e)) ->
  match_faces W lic sel σ = match_faces W lic sel' σ
  /\ (match_faces W lic sel σ).2 = (extract_face W lic σ).2.
Proof.
  intros Hno. unfold match_faces, try_except, bind.
  destruct (extract_face W lic σ) as [[e|[[lf|] e1]] σ1]; simpl in *.
  - done.
  - by destruct (Hno lf e1).
  - done.
Qed.

End Answers.

(** A licence path with no file behind it: the selfie path does not
    matter. *)
Lemma license_failure_ignores_selfie_witness :
  match_faces Demo.world (Some "uploads/none.png") (Some "uploads/a.png")
    Demo.disk
  = match_faces Demo.world (Some "uploads/none.png") None Demo.disk.
Proof.
  apply (license_failure_ignores_selfie Demo.world
           (Some "uploads/none.png") (Some "uploads/a.png") None Demo.disk).
  intros lf e H. vm_compute in H. discriminate.
Defined.

(** ** The cropped copy and its source *)

Section Copies.

Context (W : World).

Lemma str_length_app a b :
  String.length (a +:+ b) = (String.length a + String.length b)%nat.
Proof. by rewrite <- !chars_length, chars_app, length_app. Qed.

(** Replacing a character by a longer text makes a text that holds the
    character longer. *)
Lemma replace_longer old new s :
  (1 < String.length new)%nat ->
  (String.length s <= String.length (PyStr.replace old new s))%nat
  /\ (PyStr.mem old s = true ->
      (String.length s < String.length (PyStr.replace old new s))%nat).
Proof.
  intros Hnew. induction s as [|c s [IH1 IH2]]; simpl; [split; [lia|done]|].
  destruct (Ascii.eqb c old); simpl.
  - rewrite str_length_app. split; [lia|]. intros _. lia.
  - split; [lia|]. intros H. apply IH2 in H. lia.
Qed.

(** X3: [extract_face] leaves the image it reads as it is whenever the
    path holds a dot: the cropped copy goes to another path, whatever the
    outcome of the extraction. *)
Theorem extract_face_keeps_source p σ r σ' :
  PyStr.mem "." p = true ->
  extract_face W (Some p) σ = (r, σ') ->
  PyStr.replace "." "_cropped." p <> p /\ σ' !! p = σ !! p.
Proof.
  intros Hdot Hx.
  assert (PyStr.replace "." "_cropped." p <> p) as Hne.
  { intros Heq.
    destruct (replace_longer "." "_cropped." p) as [_ Hlt]; [simpl; lia|].
    apply Hlt in Hdot. rewrite Heq in Hdot. lia. }
  split; [exact Hne|].
  destruct (extract_face_frame W _ _ _ _ Hx) as [Hout _].
  apply Hout. simpl. rewrite list_elem_of_singleton. congruence.
Qed.

(** X4: [extract_face] never overwrites the image it reads.  For a path
    with a dot the crop goes to another path.  For a path without a dot
    the derived path is the path itself, but [cv2.imwrite] picks its
    encoder by the extension, finds none and raises: the extraction ends
    in that exception, returns no face and the storage is as it was. *)
Theorem extract_face_source_untouched p σ r σ' :
  encoder_needs_extension W ->
  extract_face W (Some p) σ = (r, σ') ->
  σ' !! p = σ !! p
  /\ (PyStr.mem "." p = false ->
      PyStr.replace "." "_cropped." p = p
      /\ σ' = σ
      /\ forall face e, r <> inr (Some face, e)).
Proof.
  intros Henc Hx.
  destruct (PyStr.mem "." p) eqn:Hdot.
  - split; [|done].
    destruct (extract_face_frame W _ _ _ _ Hx) as [Hout _].
    apply Hout. simpl. rewrite list_elem_of_singleton. intros Heq.
    destruct (replace_longer "." "_cropped." p) as [_ Hlt]; [simpl; lia|].
    apply Hlt in Hdot. rewrite <- Heq in Hdot. lia.
  - assert (σ' = σ /\ forall face e, r <> inr (Some face, e)) as [-> Hr].
    { revert Hx.
      unfold extract_face, str_replace, imread, imwrite, call, bind, ret.
      rewrite (replace_absent _ _ _ Hdot).
      repeat (case_match; simplify_eq/=); intros; simplify_eq;
        try (split; [reflexivity|intros ???; discriminate]);
        match goal with
        | H : imencode W p ?img = inr _ |- _ =>
            destruct (Henc p img Hdot) as [e' He']; congruence
        end. }
    split; [reflexivity|]. intros _.
    split; [by apply replace_absent|]. by split.
Qed.

End Copies.

(** The stored image of the demonstration storage has a dot in its name
    and stays as it is. *)
Lemma extract_face_keeps_source_witness :
  Demo.disk1 !! "uploads/a.png" = Demo.disk !! "uploads/a.png".
Proof.
  apply (extract_face_keeps_source Demo.world "uploads/a.png" Demo.disk
           (inr (Some "uploads/a_cropped.png", None)) Demo.disk1);
    vm_compute; reflexivity.
Defined.

(** The encoder of the demonstration world finds no writer for a path
    without a dot. *)
Lemma demo_extension_none path :
  PyStr.mem "." path = false -> Demo.extension path = None.
Proof.
  induction path as [|c path IH]; [reflexivity|]. simpl.
  intros [Hc Hp]%orb_false_elim. rewrite (IH Hp). by rewrite Hc.
Qed.

Lemma demo_encoder_needs_extension : encoder_needs_extension Demo.world.
Proof.
  intros path img Hdot. simpl. unfold Demo.imencode.
  rewrite (demo_extension_none _ Hdot). eauto.
Qed.

(** An image stored without extension is still there after the
    extraction, which ends in the encoder's exception. *)
Lemma extract_face_source_untouched_witness :
  extract_face Demo.world (Some "uploads/face") Demo.plain_disk
  = (inl "could not find a writer for the specified extension",
     Demo.plain_disk)
  /\ Demo.plain_disk !! "uploads/face" = Some [Byte.x41].
Proof.
  destruct (extract_face Demo.world (Some "uploads/face") Demo.plain_disk)
    as [r σ'] eqn:Hx.
  destruct (extract_face_source_untouched Demo.world "uploads/face"
              Demo.plain_disk r σ' demo_encoder_needs_extension Hx)
    as [_ Hplain].
  destruct (Hplain eq_refl) as (_ & -> & _).
  split; [|reflexivity].
  vm_compute in Hx. by injection Hx as <-.
Defined.

(** ** Where a request stores its files *)

Section Places.

Lemma mem_app c a b :
  PyStr.mem c (a +:+ b) = PyStr.mem c a || PyStr.mem c b.
Proof.
  induction a as [|d a IH]; [reflexivity|].
  rewrite app_cons. simpl. rewrite IH. by rewrite orb_assoc.
Qed.

(** Replacing a character brings in no character that the new text does
    not hold. *)
Lemma mem_replace c old new s :
  PyStr.mem c new = false -> PyStr.mem c s = false ->
  PyStr.mem c (PyStr.replace old new s) = false.
Proof.
  intros Hnew. induction s as [|d s IH]; [reflexivity|]. simpl.
  intros [Hd Hs]%orb_false_elim.
  destruct (Ascii.eqb d old).
  - rewrite mem_app, Hnew. by apply IH.
  - simpl. rewrite Hd. by apply IH.
Qed.

Lemma uuid_text_no_slash g : uuid_text g = true -> PyStr.mem "/" g = false.
Proof.
  unfold uuid_text. intros [_ H]%andb_prop. revert H.
  induction g as [|c g IH]; [reflexivity|]. simpl.
  intros [Hc Hg]%andb_prop. rewrite (IH Hg), orb_false_r.
  destruct (Ascii.eqb_spec c "/"); [subst; discriminate|reflexivity].
Qed.

Lemma startswith_slash_cons c s :
  PyStr.startswith "/" (String c s) = Ascii.eqb c "/".
Proof.
  unfold PyStr.startswith.
  change (String.prefix "/" (String c s))
    with (if ascii_dec "/" c then String.prefix "" s else false).
  destruct (ascii_dec "/" c) as [<-|Hne].
  - by destruct s.
  - symmetry. apply Ascii.eqb_neq. congruence.
Qed.

(** A file name starts with a slash exactly when the user id does. *)
Lemma startswith_slash_name user_id rest :
  PyStr.startswith "/" (user_id +:+ "_" +:+ rest)
  = PyStr.startswith "/" user_id.
Proof.
  destruct user_id as [|c u]; [reflexivity|].
  by rewrite app_cons, !startswith_slash_cons.
Qed.

(** X5: the four paths of a request, written out.  The uploads are
    [uploads/<user>_<uuid>_license.png] and [..._selfie.png]; a user id
    that starts with a slash makes the name absolute, and the upload
    folder is then left out.  In the cropped copies [_cropped] is put
    before the extension and also before every dot of the user id. *)
Theorem request_paths_formula user_id g :
  PyStr.mem "." g = false ->
  request_paths user_id g =
    [ folder_prefix user_id +:+ user_id +:+ "_" +:+ g +:+ "_license.png";
      folder_prefix user_id +:+ user_id +:+ "_" +:+ g +:+ "_selfie.png";
      folder_prefix user_id +:+ PyStr.replace "." "_cropped." user_id
        +:+ "_" +:+ g +:+ "_license_cropped.png";
      folder_prefix user_id +:+ PyStr.replace "." "_cropped." user_id
        +:+ "_" +:+ g +:+ "_selfie_cropped.png" ].
Proof.
  intros Hg.
  assert (forall ending,
            path_join UPLOAD_FOLDER (user_id +:+ "_" +:+ g +:+ ending)
            = folder_prefix user_id +:+ user_id +:+ "_" +:+ g +:+ ending)
    as Hjoin.
  { intros ending. unfold path_join, folder_prefix.
    rewrite startswith_slash_name.
    by destruct (PyStr.startswith "/" user_id). }
  assert (PyStr.replace "." "_cropped." (folder_prefix user_id)
          = folder_prefix user_id) as Hpre.
  { unfold folder_prefix. by destruct (PyStr.startswith "/" user_id). }
  unfold request_paths, license_name, selfie_name.
  rewrite !Hjoin, !replace_app, Hpre, (replace_absent _ _ g Hg).
  reflexivity.
Qed.

(** X6: with a user id that holds no slash, every file a request writes
    lies directly in the upload folder. *)
Theorem uploads_stay_in_folder user_id g p :
  PyStr.mem "/" user_id = false ->
  uuid_text g = true ->
  p ∈ request_paths user_id g ->
  exists name, p = "uploads/" +:+ name /\ PyStr.mem "/" name = false.
Proof.
  intros Hu Hg Hp.
  rewrite request_paths_formula in Hp by by apply uuid_text_no_dot.
  assert (folder_prefix user_id = "uploads/") as Hpre.
  { unfold folder_prefix. destruct user_id as [|c u]; [reflexivity|].
    rewrite startswith_slash_cons. simpl in Hu.
    apply orb_false_elim in Hu as [Hc _]. by rewrite Hc. }
  rewrite Hpre in Hp.
  pose proof (uuid_text_no_slash g Hg) as Hgs.
  assert (PyStr.mem "/" (PyStr.replace "." "_cropped." user_id) = false)
    as Hr by by apply mem_replace.
  repeat (apply elem_of_cons in Hp as [->|Hp]);
    [| | | |by apply elem_of_nil in Hp];
    eexists; (split; [reflexivity|]);
    rewrite !mem_app, ?Hu, ?Hr, ?Hgs; reflexivity.
Qed.

End Places.

(** The paths of a request whose user id is [a.b]. *)
Lemma request_paths_formula_witness :
  request_paths "a.b" Demo.uuid1 =
    [ "uploads/a.b_3f2b8c1e-5d47-4a90-9c3e-7b1a2d4e6f80_license.png";
      "uploads/a.b_3f2b8c1e-5d47-4a90-9c3e-7b1a2d4e6f80_selfie.png";
      "uploads/a_cropped.b_3f2b8c1e-5d47-4a90-9c3e-7b1a2d4e6f80_license_cropped.png";
      "uploads/a_cropped.b_3f2b8c1e-5d47-4a90-9c3e-7b1a2d4e6f80_selfie_cropped.png" ].
Proof.
  rewrite (request_paths_formula "a.b" Demo.uuid1); reflexivity.
Defined.

(** The licence upload of user [u1] lies in the upload folder. *)
Lemma uploads_stay_in_folder_witness :
  exists name,
    path_join UPLOAD_FOLDER (license_name "u1" Demo.uuid1)
    = "uploads/" +:+ name
    /\ PyStr.mem "/" name = false.
Proof.
  apply (uploads_stay_in_folder "u1" Demo.uuid1);
    [reflexivity | reflexivity | unfold request_paths; set_solver].
Defined.


(** ** A data URI with one comma *)

Section SingleComma.

Context (W : World).

Lemma before_first_absent c s :
  PyStr.mem c s = false -> PyStr.before_first c s = s.
Proof.
  induction s as [|d s IH]; [reflexivity|]. simpl.
  intros [Hd Hs]%orb_false_elim. rewrite Hd. by rewrite IH.
Qed.

(** X7: for a string that starts with [data:image] and holds exactly one
    comma, all of the text after the comma is decoded and written; a text
    the decoder rejects, or a file that cannot be opened, gives the error
    and no file. *)
Theorem data_uri_single_comma base64_string payload filename σ :
  PyStr.startswith "data:image" base64_string = true ->
  PyStr.after_first "," base64_string = Some payload ->
  PyStr.mem "," payload = false ->
  save_base64_image W base64_string filename σ =
    let file_path := path_join UPLOAD_FOLDER filename in
    match b64decode W payload with
    | inl e => (inr (None, Some e), σ)
    | inr image_data =>
        match open_wb W file_path with
        | Some e => (inr (None, Some e), σ)
        | None => (inr (Some file_path, None), <[file_path := image_data]> σ)
        end
    end.
Proof.
  intros Hpre Hafter Hone. run.
  rewrite Hpre, split_second, Hafter. simpl.
  rewrite (before_first_absent _ _ Hone).
  destruct (b64decode W payload); [reflexivity|].
  by destruct (open_wb W _).
Qed.

End SingleComma.

(** A PNG data URI whose payload is the one byte [A]. *)
Lemma data_uri_single_comma_witness :
  save_base64_image Demo.world "data:image/png;base64,QQ==" "f.png" ∅
  = (inr (Some "uploads/f.png", None), {["uploads/f.png" := [Byte.x41]]}).
Proof.
  rewrite (data_uri_single_comma Demo.world "data:image/png;base64,QQ=="
             "QQ==" "f.png" ∅); reflexivity.
Defined.

(** ** Boxes that stick out of the image *)

Section Clipping.

(** For bounds that are not negative a slice runs from [a] to [b], both
    cut down to the length. *)
Lemma py_slice_clipped {A} (l : list A) (a b : Z) :
  0 <= a -> a <= b ->
  py_slice l a b =
    take (Z.to_nat (Z.min b (Z.of_nat (length l))
                    - Z.min a (Z.of_nat (length l))))
      (drop (Z.to_nat (Z.min a (Z.of_nat (length l)))) l).
Proof.
  intros Ha Hab. unfold py_slice, slice_bound.
  destruct (Z.ltb_spec a 0), (Z.ltb_spec b 0); try lia. reflexivity.
Qed.

(** X8: cropping does not fail for a box that sticks out of the image on
    the right or at the bottom, as long as its far corner stays in the
    [int32] range of the coordinates, so that the sums [x + w] and [y + h]
    of line 62 do not wrap around; the crop is the part of the box inside
    the image.  With [rows] and [cols] the numbers of rows and columns of
    that part, the crop has [rows] rows of [cols] pixels, never more than
    the box asks for, and its pixel in row [i], column [j] is the pixel of
    the source in row [y + i], column [x + j]. *)
Theorem crop_clipped (img : image) (width height x y w h : Z) :
  Z.of_nat (length img) = height ->
  Forall (fun row => Z.of_nat (length row) = width) img ->
  0 <= x -> 0 <= y -> 0 <= w -> 0 <= h ->
  x + w < 2 ^ 31 -> y + h < 2 ^ 31 ->
  let rows := Z.min (y + h) height - Z.min y height in
  let cols := Z.min (x + w) width - Z.min x width in
  Z.of_nat (length (crop img x y w h)) = rows
  /\ Forall (fun row => Z.of_nat (length row) = cols) (crop img x y w h)
  /\ 0 <= rows <= h /\ 0 <= cols <= w
  /\ forall i j, 0 <= i < rows -> 0 <= j < cols ->
       exists px : pixel,
         img !! Z.to_nat (y + i) ≫= (.!! Z.to_nat (x + j)) = Some px
         /\ crop img x y w h !! Z.to_nat i ≫= (.!! Z.to_nat j) = Some px.
Proof.
  intros Hh Hw Hx Hy Hw0 Hh0 _ _ rows cols.
  assert (crop img x y w h =
            (fun row => take (Z.to_nat cols) (drop (Z.to_nat (Z.min x width))
                                                row))
              <$> take (Z.to_nat rows) (drop (Z.to_nat (Z.min y height)) img))
    as Hcrop.
  { unfold crop. rewrite py_slice_clipped by lia. rewrite Hh.
    apply list_eq. intros i. rewrite !list_lookup_fmap.
    destruct (take _ _ !! i) as [row|] eqn:Hrow; [simpl|done].
    assert (Z.of_nat (length row) = width) as Hlen.
    { apply lookup_take_Some in Hrow as [Hrow _].
      rewrite lookup_drop in Hrow.
      by eapply (proj1 (Forall_lookup _ _) Hw). }
    rewrite py_slice_clipped by lia. by rewrite Hlen. }
  rewrite Hcrop.
  split; [|split; [|split; [|split]]].
  - rewrite length_fmap, length_take, length_drop. lia.
  - apply Forall_fmap, Forall_take, Forall_drop.
    eapply Forall_impl; [exact Hw|]. intros row Hrow.
    unfold compose. simpl in *.
    rewrite length_take, length_drop. lia.
  - lia.
  - lia.
  - intros i j Hi Hj.
    destruct (lookup_lt_is_Some_2 img (Z.to_nat (y + i))) as [row Hrow];
      [lia|].
    assert (Z.of_nat (length row) = width) as Hlen
      by by eapply (proj1 (Forall_lookup _ _) Hw).
    destruct (lookup_lt_is_Some_2 row (Z.to_nat (x + j))) as [px Hpx];
      [lia|].
    exists px. rewrite Hrow. simpl. split; [exact Hpx|].
    rewrite list_lookup_fmap, lookup_take_lt, lookup_drop by lia.
    replace (Z.to_nat (Z.min y height) + Z.to_nat i)%nat
      with (Z.to_nat (y + i)) by lia.
    rewrite Hrow. simpl.
    rewrite lookup_take_lt, lookup_drop by lia.
    by replace (Z.to_nat (Z.min x width) + Z.to_nat j)%nat
      with (Z.to_nat (x + j)) by lia.
Qed.

End Clipping.

(** A box of three by three at the corner (2, 1) of the three by four
    grid: two columns and two rows of it are inside. *)
Lemma crop_clipped_witness :
  crop Demo.grid 2 1 3 3
  = [ [(Byte.x12, Byte.x12, Byte.x12); (Byte.x13, Byte.x13, Byte.x13)];
      [(Byte.x22, Byte.x22, Byte.x22); (Byte.x23, Byte.x23, Byte.x23)] ]
  /\ Z.of_nat (length (crop Demo.grid 2 1 3 3)) = 2.
Proof.
  destruct (crop_clipped Demo.grid 4 3 2 1 3 3) as (Hlen & _);
    [reflexivity | repeat constructor | lia | lia | lia | lia | lia | lia |].
  split; [reflexivity | exact Hlen].
Defined.


(** ** Requests do not see each other's files *)

Section Isolation.

Context (W : World).

Lemma framed_ret {A} ps (a : A) : framed ps (ret a).
Proof. by intros τ σ _. Qed.

Lemma framed_raise {A} ps e : framed ps (@raise A e).
Proof. by intros τ σ _. Qed.

Lemma framed_call {A} ps (r : exn + A) : framed ps (call r).
Proof. by intros τ σ _. Qed.

Lemma framed_weaken {A} ps ps' (m : M A) :
  ps ⊆ ps' -> framed ps m -> framed ps' m.
Proof.
  intros Hsub Hm τ σ Hσ. apply Hm.
  rewrite Forall_forall in *. auto.
Qed.

(** The rest of a computation need only be framed for the values its
    first part can return. *)
Lemma framed_bind {A B} ps (m : M A) (k : A -> M B) :
  framed ps m ->
  (forall a τ τ', m τ = (inr a, τ') -> framed ps (k a)) ->
  framed ps (bind m k).
Proof.
  intros Hm Hk τ σ Hσ. unfold bind. rewrite (Hm τ σ Hσ).
  destruct (m τ) as [[e|a] τ'] eqn:E; simpl; [reflexivity|].
  apply (Hk a τ τ' E τ' σ Hσ).
Qed.

Lemma framed_try_except {A} ps (m : M A) (h : exn -> M A) :
  framed ps m -> (forall e, framed ps (h e)) ->
  framed ps (try_except m h).
Proof.
  intros Hm Hh τ σ Hσ. unfold try_except. rewrite (Hm τ σ Hσ).
  destruct (m τ) as [[e|a] τ'] eqn:E; simpl; [|reflexivity].
  apply (Hh e τ' σ Hσ).
Qed.

Lemma framed_write_file ps p content :
  p ∈ ps -> framed ps (write_file W p content).
Proof.
  intros Hp τ σ Hσ. unfold write_file.
  destruct (open_wb W p); [reflexivity|]. simpl.
  by rewrite insert_union_l.
Qed.

Lemma framed_imread ps image_path :
  (forall p, image_path = Some p -> p ∈ ps) ->
  framed ps (imread W image_path).
Proof.
  intros Hp τ σ Hσ. unfold imread.
  destruct image_path as [p|]; [|by destruct (imread_none W)]. simpl.
  rewrite lookup_union_l; [reflexivity|].
  rewrite Forall_forall in Hσ. apply Hσ, Hp. reflexivity.
Qed.

Lemma framed_imwrite ps p img : p ∈ ps -> framed ps (imwrite W p img).
Proof.
  intros Hp τ σ Hσ. unfold imwrite.
  destruct (imencode W p img); [reflexivity|].
  destruct (open_wb W p); [reflexivity|]. simpl.
  by rewrite insert_union_l.
Qed.

Lemma framed_DeepFace_distance ps a b :
  a ∈ ps -> b ∈ ps -> framed ps (DeepFace_distance W a b).
Proof.
  intros Ha Hb τ σ Hσ. unfold DeepFace_distance. simpl.
  rewrite Forall_forall in Hσ.
  by rewrite !lookup_union_l by auto.
Qed.

Lemma framed_save_base64_image base64_string filename :
  framed [path_join UPLOAD_FOLDER filename]
    (save_base64_image W base64_string filename).
Proof.
  unfold save_base64_image.
  apply framed_try_except; [|intros; apply framed_ret].
  apply framed_bind.
  { destruct base64_string as [| | | |text| |];
      try destruct (PyStr.startswith _ text); try destruct (_ !! 1%nat);
      auto using @framed_ret, @framed_raise. }
  intros base64_data _ _ _.
  apply framed_bind; [apply framed_call|]. intros image_data _ _ _.
  apply framed_bind; [apply framed_write_file; set_solver|].
  intros; apply framed_ret.
Qed.

Lemma framed_extract_face image_path :
  framed (touched image_path) (extract_face W image_path).
Proof.
  unfold extract_face.
  apply framed_bind.
  { apply framed_imread. intros p ->. simpl. set_solver. }
  intros [image|] _ _ _; [|apply framed_ret].
  apply framed_bind; [apply framed_call|].
  intros [|[x y w h] faces] _ _ _; [apply framed_ret|].
  apply framed_bind.
  { unfold str_replace. destruct image_path; [apply framed_ret|].
    apply framed_raise. }
  intros out τ τ' Hout. unfold str_replace in Hout.
  destruct image_path as [p|]; [|discriminate]. unfold ret in Hout.
  simplify_eq.
  apply framed_bind; [apply framed_imwrite; simpl; set_solver|].
  intros; apply framed_ret.
Qed.

(** The path [extract_face] returns is the cropped copy. *)
Lemma extract_face_returns image_path τ face e τ' :
  extract_face W image_path τ = (inr (Some face, e), τ') ->
  face ∈ touched image_path.
Proof.
  run. destruct image_path as [p|]; simpl;
    repeat (case_match; simplify_eq/=); intros; simplify_eq; set_solver.
Qed.

Lemma framed_match_faces lp sp :
  framed (touched lp ++ touched sp) (match_faces W lp sp).
Proof.
  unfold match_faces.
  apply framed_try_except; [|intros; apply framed_ret].
  apply framed_bind.
  { eapply framed_weaken; [|apply framed_extract_face]. set_solver. }
  intros [[lf|] e1] τ τ1 H1; [|apply framed_ret].
  apply extract_face_returns in H1.
  apply framed_bind.
  { eapply framed_weaken; [|apply framed_extract_face]. set_solver. }
  intros [[sf|] e2] τ' τ2 H2; [|apply framed_ret].
  apply extract_face_returns in H2.
  apply framed_bind; [apply framed_DeepFace_distance; set_solver|].
  intros d _ _ _. destruct (_ <=? _)%float; apply framed_ret.
Qed.

(** The path [save_base64_image] returns is the file it names. *)
Lemma save_base64_image_returns base64_string filename τ lp le τ' :
  save_base64_image W base64_string filename τ = (inr (lp, le), τ') ->
  touched lp
    ⊆ [path_join UPLOAD_FOLDER filename;
       PyStr.replace "." "_cropped." (path_join UPLOAD_FOLDER filename)].
Proof.
  intros H. destruct lp as [p|]; [|set_solver].
  destruct (proj2 (save_base64_image_frame W _ _ _ _ _ H) p le eq_refl)
    as [-> _].
  set_solver.
Qed.

(** X9: a request does not see the files of others.  Run in a storage
    that holds, next to the files of [τ], further files [σ] none of which
    lies at one of the four paths of the request, it gives the answer it
    gives in [τ] alone and leaves the further files in place. *)
Theorem verify_frame_rule req unique_id (τ σ : fs) :
  Forall (fun p => σ !! p = None) (request_paths (req_user W req) unique_id) ->
  verify W req unique_id (τ ∪ σ) =
    ((verify W req unique_id τ).1, (verify W req unique_id τ).2 ∪ σ).
Proof.
  revert τ σ.
  change (framed (request_paths (req_user W req) unique_id)
            (verify W req unique_id)).
  unfold verify.
  apply framed_try_except; [|intros; apply framed_ret].
  destruct (is_json req); simpl; [|apply framed_ret].
  apply framed_bind; [apply framed_call|].
  intros data τ0 τ0' Hd. unfold call in Hd. injection Hd as Hd _.
  apply framed_bind; [apply framed_call|].
  intros missing τm τm' Hm. unfold call in Hm. injection Hm as Hm _.
  destruct missing; [apply framed_ret|].
  unfold subscript.
  apply framed_bind; [apply framed_call|].
  intros user_id τ1 τ1' Hu. unfold call in Hu. injection Hu as Hu _.
  assert (req_user W req = format W user_id) as ->.
  { destruct (fields_present W data user_id Hm Hu) as (Hu' & _).
    by apply (req_user_eq W req data). }
  apply framed_bind; [apply framed_call|].
  intros license_base64 _ _ _.
  change (format W user_id +:+ "_" +:+ unique_id +:+ "_license.png")
    with (license_name (format W user_id) unique_id).
  change (format W user_id +:+ "_" +:+ unique_id +:+ "_selfie.png")
    with (selfie_name (format W user_id) unique_id).
  apply framed_bind.
  { eapply framed_weaken; [|apply framed_save_base64_image].
    unfold request_paths. set_solver. }
  intros [lp le] τ2 τ2' Hsl.
  apply save_base64_image_returns in Hsl.
  destruct (truthy le); [apply framed_ret|].
  apply framed_bind; [apply framed_call|].
  intros selfie_base64 _ _ _.
  apply framed_bind.
  { eapply framed_weaken; [|apply framed_save_base64_image].
    unfold request_paths. set_solver. }
  intros [sp se] τ3 τ3' Hss.
  apply save_base64_image_returns in Hss.
  destruct (truthy se); [apply framed_ret|].
  apply framed_bind; [|intros; apply framed_ret].
  eapply framed_weaken; [|apply framed_match_faces].
  unfold request_paths. set_solver.
Qed.

End Isolation.

(** In the demonstration world a request run next to the two stored
    images answers as on an empty storage and leaves both images. *)
Lemma verify_frame_rule_witness :
  verify Demo.world (Demo.post "u1" "QQ==" "Qg==") Demo.uuid1 Demo.disk =
    ((verify Demo.world (Demo.post "u1" "QQ==" "Qg==") Demo.uuid1 ∅).1,
     (verify Demo.world (Demo.post "u1" "QQ==" "Qg==") Demo.uuid1 ∅).2
       ∪ Demo.disk).
Proof.
  rewrite <- (verify_frame_rule Demo.world (Demo.post "u1" "QQ==" "Qg==")
                Demo.uuid1 ∅ Demo.disk).
  - by rewrite (left_id_L ∅ (∪)).
  - vm_compute. repeat constructor.
Defined.

(** ** What a refused request leaves behind *)

Section Leftovers.

Context (W : World).

(** X10: a request that is not answered with status 200 has written
    nothing, with one exception: when the selfie upload is refused after
    the licence upload was stored, the licence file stays in the upload
    folder.  In particular the status 500 answer and every 400 answer
    other than the selfie error leave the storage as it was. *)
Theorem refused_request_leftover req unique_id σ body status σ' :
  verify W req unique_id σ = (inr (body, status), σ') ->
  status <> 200 ->
  σ' = σ
  \/ (status = 400
      /\ exists content e,
           σ' = <[path_join UPLOAD_FOLDER
                    (license_name (req_user W req) unique_id) := content]> σ
           /\ error body = Some ("Selfie image error: " +:+ e)).
Proof.
  intros Hv Hst.
  destruct (verify_outcome_spec W req unique_id σ)
    as (resp & σ'' & Hv' & Hout).
  rewrite Hv in Hv'. simplify_eq.
  inversion Hout; subst; auto; [|done].
  match goal with
  | H : save_base64_image _ _ (license_name _ _) _ = _ |- _ =>
      destruct (save_base64_image_cases W license_base64
                  (license_name (format W user_id) unique_id) σ)
        as [(content & _ & Hs)|(e' & Hs)];
      rewrite Hs in H; simplify_eq
  end; [|by left].
  right. split; [reflexivity|].
  erewrite req_user_eq by eassumption. eauto.
Qed.

End Leftovers.

(** A good licence and a selfie that is not valid base64: the answer is
    the selfie error and the licence file is left in the upload folder. *)
Lemma refused_request_leftover_witness :
  (verify Demo.world (Demo.post "u1" "QQ==" "abc") Demo.uuid1 ∅).2 = ∅
  \/ exists content e,
       (verify Demo.world (Demo.post "u1" "QQ==" "abc") Demo.uuid1 ∅).2
       = <[path_join UPLOAD_FOLDER (license_name "u1" Demo.uuid1)
           := content]> ∅
       /\ Some "Selfie image error: Incorrect padding"
          = Some ("Selfie image error: " +:+ e).
Proof.
  destruct (refused_request_leftover Demo.world
              (Demo.post "u1" "QQ==" "abc") Demo.uuid1 ∅
              (Result false (Some "Selfie image error: Incorrect padding")
                 None) 400
              (verify Demo.world (Demo.post "u1" "QQ==" "abc")
                 Demo.uuid1 ∅).2)
    as [H|(_ & content & e & H1 & H2)];
    [vm_compute; reflexivity | discriminate | by left |].
  right. exists content, e. split; [exact H1 | exact H2].
Defined.

(** ** Upload names tell requests apart *)

Section Telling.



End Telling.

